(** * FluentWork backend: session lifecycle, scenario selection and scoring

    A shallow embedding of the practice-conversation backend
    (models.py, scenarios.py, conversation_engine.py, feedback_analyzer.py
    and the session endpoints of main.py), followed by the properties of
    the session engine stated in the specification.

    Conventions of the embedding:
    - a Python [str] is a [string]; characters are taken to be ASCII;
    - a Python [int] is a [Z]; a [len(...)] is a [nat];
    - a [datetime] is a [Z], the number of microseconds since a fixed
      origin; every call of [datetime.now()] is an explicit argument;
    - an exception is a value of [exn]; code that can raise returns a
      [result];
    - the two module globals of main.py ([sessions], [user_progress]) are
      the two fields of an explicit [State];
    - randomness ([random.choice], [uuid.uuid4]) and the two remote
      collaborators (the chat completion calls) are explicit arguments. *)

From Stdlib Require Import ZArith String Ascii List Bool Lia PeanoNat QArith_base.
From Stdlib Require Import DecimalString Qreduction.
Import ListNotations.

Local Open Scope string_scope.
Local Open Scope list_scope.
Local Open Scope Z_scope.

(** ** Exceptions *)

Inductive exn : Type :=
| IndexError (msg : string)        (* random.choice on an empty sequence *)
| KeyError (msg : string)          (* popitem on an empty dictionary *)
| ValueError (msg : string)        (* int() on a malformed string *)
| AttributeError (msg : string)    (* a method called on None *)
| APIError (msg : string)          (* any error of a remote call *)
| HTTPException (status_code : Z) (detail : string).

(** [str(e)] *)
Definition exn_str (e : exn) : string :=
  match e with
  | IndexError msg | ValueError msg | AttributeError msg | APIError msg => msg
  | KeyError msg => String.append "'" (String.append msg "'")
  | HTTPException _ detail => detail
  end.

Inductive result (A : Type) : Type :=
| Ok (a : A)
| Raise (e : exn).
Arguments Ok {A} a.
Arguments Raise {A} e.

Definition bind {A B : Type} (m : result A) (k : A -> result B) : result B :=
  match m with
  | Ok a => k a
  | Raise e => Raise e
  end.

Notation "x <- m ;; k" := (bind m (fun x => k))
  (at level 61, m at next level, right associativity).

(** ** Python string operations (on ASCII text) *)

Module PyStr.

Infix "+++" := String.append (at level 60, right associativity).

Definition nl : string := String (ascii_of_nat 10) EmptyString.

Definition code (c : ascii) : nat := nat_of_ascii c.

(** [c.isspace()]: tab, line feed, vertical tab, form feed, carriage
    return, the four separators 28..31 and the space. *)
Definition is_space (c : ascii) : bool :=
  (Nat.leb 9 (code c) && Nat.leb (code c) 13)
  || (Nat.leb 28 (code c) && Nat.leb (code c) 32).

Definition is_digit (c : ascii) : bool :=
  Nat.leb 48 (code c) && Nat.leb (code c) 57.

Definition digit_value (c : ascii) : Z := Z.of_nat (code c - 48).

Definition lower_char (c : ascii) : ascii :=
  if Nat.leb 65 (code c) && Nat.leb (code c) 90
  then ascii_of_nat (code c + 32) else c.

(** [s.lower()] *)
Fixpoint lower (s : string) : string :=
  match s with
  | EmptyString => EmptyString
  | String c s' => String (lower_char c) (lower s')
  end.

(** [s.lstrip()] *)
Fixpoint lstrip (s : string) : string :=
  match s with
  | EmptyString => EmptyString
  | String c s' => if is_space c then lstrip s' else s
  end.

(** [s.rstrip()] *)
Fixpoint rstrip (s : string) : string :=
  match s with
  | EmptyString => EmptyString
  | String c s' =>
      match rstrip s' with
      | EmptyString => if is_space c then EmptyString else String c EmptyString
      | r => String c r
      end
  end.

(** [s.strip()] *)
Definition strip (s : string) : string := rstrip (lstrip s).

(** [s.split()]: the maximal runs of non-space characters, in order.
    [cur] is the run being read, [None] between two runs. *)
Fixpoint split_from (cur : option string) (s : string) : list string :=
  match s with
  | EmptyString =>
      match cur with
      | Some w => [w]
      | None => []
      end
  | String c s' =>
      if is_space c then
        match cur with
        | Some w => w :: split_from None s'
        | None => split_from None s'
        end
      else
        match cur with
        | Some w => split_from (Some (w +++ String c EmptyString)) s'
        | None => split_from (Some (String c EmptyString)) s'
        end
  end.

Definition split (s : string) : list string := split_from None s.

(** [needle in hay] *)
Fixpoint contains (needle hay : string) : bool :=
  String.prefix needle hay
  || match hay with
     | EmptyString => false
     | String _ hay' => contains needle hay'
     end.

(** [sep.join(parts)] *)
Fixpoint join (sep : string) (parts : list string) : string :=
  match parts with
  | [] => EmptyString
  | [p] => p
  | p :: rest => p +++ sep +++ join sep rest
  end.

(** The digits of a decimal integer literal after its sign: digits with
    single underscores allowed between two digits. *)
Fixpoint parse_digits (acc : Z) (after_digit : bool) (s : string) : option Z :=
  match s with
  | EmptyString => if after_digit then Some acc else None
  | String c s' =>
      if is_digit c then parse_digits (acc * 10 + digit_value c) true s'
      else if Ascii.eqb c "_"%char then
        if after_digit then parse_digits acc false s' else None
      else None
  end.

(** The white space [int()] skips around an ASCII literal: tab, line
    feed, vertical tab, form feed, carriage return and the space.  The
    separators 28..31, which [strip()] removes, are not skipped. *)
Definition is_int_space (c : ascii) : bool :=
  (Nat.leb 9 (code c) && Nat.leb (code c) 13) || Nat.eqb (code c) 32.

Fixpoint lstrip_with (p : ascii -> bool) (s : string) : string :=
  match s with
  | EmptyString => EmptyString
  | String c s' => if p c then lstrip_with p s' else s
  end.

Fixpoint rstrip_with (p : ascii -> bool) (s : string) : string :=
  match s with
  | EmptyString => EmptyString
  | String c s' =>
      match rstrip_with p s' with
      | EmptyString => if p c then EmptyString else String c EmptyString
      | r => String c r
      end
  end.

(** The number of digits of a literal, underscores left out. *)
Fixpoint count_digits (s : string) : Z :=
  match s with
  | EmptyString => 0
  | String c s' => (if is_digit c then 1 else 0) + count_digits s'
  end.

(** [sys.get_int_max_str_digits()], at its default. *)
Definition INT_MAX_STR_DIGITS : Z := 4300.

(** The literal [ds] that follows the sign, in the text [s]. *)
Definition int_unsigned (s ds : string) : result Z :=
  match parse_digits 0 false ds with
  | None =>
      Raise (ValueError ("invalid literal for int() with base 10: '" +++ s +++ "'"))
  | Some n =>
      if INT_MAX_STR_DIGITS <? count_digits ds then
        Raise (ValueError
                 "Exceeds the limit (4300 digits) for integer string conversion")
      else Ok n
  end.

(** [int(s)] in base 10 on ASCII text: white space around, an optional
    sign, then the digits, of which there may be 4300 at most (leading
    zeros counted).  Only the kind of the error is the interpreter's; its
    message is given in short. *)
Definition int (s : string) : result Z :=
  match rstrip_with is_int_space (lstrip_with is_int_space s) with
  | String "-"%char ds => n <- int_unsigned s ds ;; Ok (- n)
  | String "+"%char ds => int_unsigned s ds
  | ds => int_unsigned s ds
  end.

(** Python truthiness of an [Optional[str]]: neither [None] nor empty. *)
Definition truthy (o : option string) : bool :=
  match o with
  | None => false
  | Some EmptyString => false
  | Some _ => true
  end.

End PyStr.

(** ** models.py *)

Inductive ComplexityLevel : Type := EASY | MEDIUM | HARD.

Inductive MessageRole : Type := MANAGER | USER.

Definition ComplexityLevel_eqb (a b : ComplexityLevel) : bool :=
  match a, b with
  | EASY, EASY | MEDIUM, MEDIUM | HARD, HARD => true
  | _, _ => false
  end.

Definition MessageRole_eqb (a b : MessageRole) : bool :=
  match a, b with
  | MANAGER, MANAGER | USER, USER => true
  | _, _ => false
  end.

(** [ComplexityLevel.value] *)
Definition ComplexityLevel_value (c : ComplexityLevel) : string :=
  match c with
  | EASY => "easy"
  | MEDIUM => "medium"
  | HARD => "hard"
  end.

Module Message.
Record t : Type := mk
  { role : MessageRole;
    content : string;
    timestamp : Z }.
End Message.

Module Scenario.
Record t : Type := mk
  { id : string;
    primary_topic : string;
    complexity_level : ComplexityLevel;
    surprise_element : option string;
    context : string;
    initial_prompt : string;
    helpful_phrases : list string }.
End Scenario.

Module Session.
Record t : Type := mk
  { id : string;
    scenario : Scenario.t;
    conversation_history : list Message.t;
    start_time : Z;
    is_active : bool }.

(** [session.conversation_history.append(msg)] *)
Definition append (s : t) (msg : Message.t) : t :=
  mk (id s) (scenario s) (conversation_history s ++ [msg])
     (start_time s) (is_active s).

(** [session.is_active = b] *)
Definition set_is_active (s : t) (b : bool) : t :=
  mk (id s) (scenario s) (conversation_history s) (start_time s) b.
End Session.

Module Feedback.
(** Scores are Python floats; a float is kept as the rational it denotes. *)
Record t : Type := mk
  { clarity_score : Q;
    fluency_score : Q;
    professional_score : Q;
    improvement_tip : string;
    detailed_analysis : option string }.
End Feedback.

Module UserProgress.
Record t : Type := mk
  { total_sessions : Z;
    current_complexity : ComplexityLevel;
    streak_days : Z;
    last_session_date : option Z }.

(** [UserProgress()] *)
Definition default : t := mk 0 EASY 0 None.
End UserProgress.

(** ** scenarios.py *)

Module Scenarios.

Definition SCENARIOS : list Scenario.t :=
  [ Scenario.mk "easy_1" "weekly_progress" EASY None
      "You had a productive week and completed your assigned tasks."
      "Hi! How was your week? What did you work on?"
      [ "I completed..."; "I'm currently working on...";
        "This week I focused on..."; "Everything is on track." ];
    Scenario.mk "easy_2" "current_tasks" EASY None
      "You're working on updating the user dashboard with new analytics."
      "Good morning! What are you currently working on?"
      [ "I'm working on..."; "I'm updating the...";
        "I'm making progress on..."; "I should finish this by..." ];
    Scenario.mk "medium_1" "minor_delay" MEDIUM
      (Some "Manager asks about impact on timeline")
      "Your task is delayed by 2 days because of API documentation issues."
      "Hey, how's the API integration going?"
      [ "I'm running into..."; "There's a delay because...";
        "It will take an extra... days"; "I estimate I'll finish by..." ];
    Scenario.mk "medium_2" "need_clarification" MEDIUM
      (Some "Manager asks you to propose a solution")
      "You're unclear about the requirements for the new feature."
      "I wanted to check in on the new feature. How's it coming along?"
      [ "I need clarification on..."; "I'm not sure about...";
        "Could we discuss..."; "I have a question about..." ];
    Scenario.mk "medium_3" "cross_team_dependency" MEDIUM
      (Some "Manager asks when you followed up with other team")
      "You're waiting on the design team to finalize mockups."
      "What's the status on the homepage redesign?"
      [ "I'm waiting for..."; "I'm blocked by...";
        "Once I receive... I can proceed"; "I followed up with... team" ];
    Scenario.mk "medium_4" "technical_blocker" MEDIUM
      (Some "Manager asks if you need additional resources")
      "You're stuck on a performance issue with database queries."
      "How's the database optimization task going?"
      [ "I'm stuck on..."; "I'm facing a challenge with...";
        "I could use some help with..."; "I've tried... but..." ];
    Scenario.mk "hard_1" "significant_delay" HARD
      (Some "Manager reveals client is waiting on this deliverable")
      "Your feature is 5 days behind schedule due to unexpected technical challenges."
      "I need an update on the payment integration. The deadline is approaching."
      [ "Unfortunately, we're behind schedule because...";
        "I've encountered unexpected..."; "My revised estimate is...";
        "Here's what I'm doing to catch up..." ];
    Scenario.mk "hard_2" "scope_creep" HARD
      (Some "Manager suggests adding even more features")
      "Stakeholders keep requesting additional features beyond the original scope."
      "How's the customer portal coming? I heard marketing had some ideas."
      [ "We're getting requests for..."; "This is beyond the original scope";
        "If we add this, it will impact..."; "I suggest we prioritize..." ];
    Scenario.mk "hard_3" "need_help" HARD
      (Some "Manager asks why you didn't mention this earlier")
      "You've been struggling with a complex algorithm for 3 days and need senior help."
      "How's the search algorithm refactoring going? You've been on it for a while."
      [ "I need assistance with..."; "I've been struggling with...";
        "Could someone review..."; "I'd appreciate guidance on..." ];
    Scenario.mk "hard_4" "conflicting_priorities" HARD
      (Some "Manager adds another urgent task")
      "You have three high-priority tasks and can't complete them all on time."
      "Quick check-in. What are you focusing on this week?"
      [ "I'm currently juggling..."; "I need help prioritizing...";
        "Which should I focus on first?"; "I can't complete all of these by..." ];
    Scenario.mk "hard_5" "quality_vs_speed" HARD
      (Some "Manager emphasizes quality importance after you mention rushing")
      "You can meet the deadline but the code quality will suffer, or take 2 more days for proper implementation."
      "The demo is in 3 days. Is everything ready?"
      [ "I can meet the deadline, but..."; "There's a trade-off between...";
        "If we want quality, we need..."; "I recommend we..." ];
    Scenario.mk "easy_3" "completed_task" EASY None
      "You just finished implementing the login page and it's ready for review."
      "Hi! I saw you closed the ticket. How did it go?"
      [ "I finished..."; "It's ready for review"; "I implemented...";
        "It went smoothly" ];
    Scenario.mk "medium_5" "changing_requirements" MEDIUM
      (Some "Manager asks how this affects other features")
      "The requirements changed mid-sprint and you need to revise your approach."
      "How's the reports feature? I know the requirements were updated."
      [ "The requirements changed..."; "I need to revise...";
        "This means I'll have to..."; "I'm adjusting my approach" ];
    Scenario.mk "hard_6" "bug_in_production" HARD
      (Some "Manager asks about prevention measures")
      "A bug you introduced is affecting production users, and you're working on a hotfix."
      "I heard there's an issue in production. Can you update me?"
      [ "There's a bug affecting..."; "I'm working on a hotfix";
        "The issue is caused by..."; "I'll have it fixed by..." ] ].

Definition get_scenarios_by_complexity (complexity : ComplexityLevel)
  : list Scenario.t :=
  filter (fun s => ComplexityLevel_eqb (Scenario.complexity_level s) complexity)
         SCENARIOS.

(** [random.choice(seq)]: [seq[randbelow(len(seq))]], an [IndexError] on an
    empty sequence.  The draw is the argument [rnd]; the index used is
    [rnd mod len(seq)], so every index below the length is reachable. *)
Definition random_choice {A : Type} (rnd : nat) (seq : list A) : result A :=
  match nth_error seq (Nat.modulo rnd (length seq)) with
  | Some a => Ok a
  | None => Raise (IndexError "Cannot choose from an empty sequence")
  end.

Definition select_scenario_for_user (rnd : nat) (user_progress : UserProgress.t)
  : result Scenario.t :=
  let available :=
    if UserProgress.total_sessions user_progress <? 2 then
      get_scenarios_by_complexity EASY
    else if UserProgress.total_sessions user_progress <? 5 then
      get_scenarios_by_complexity MEDIUM
    else
      if UserProgress.total_sessions user_progress mod 3 =? 0 then
        get_scenarios_by_complexity HARD
      else
        get_scenarios_by_complexity MEDIUM
  in
  random_choice rnd available.

Definition determine_next_complexity (user_progress : UserProgress.t)
  : ComplexityLevel :=
  if UserProgress.total_sessions user_progress <? 2 then EASY
  else if UserProgress.total_sessions user_progress <? 5 then MEDIUM
  else HARD.

Definition get_scenario_by_id (scenario_id : string) : result Scenario.t :=
  match find (fun scenario => String.eqb (Scenario.id scenario) scenario_id)
             SCENARIOS with
  | Some scenario => Ok scenario
  | None =>
      Raise (ValueError (String.append "Scenario "
                           (String.append scenario_id " not found")))
  end.

End Scenarios.


(** ** conversation_engine.py *)

Module ConversationEngine.
Import PyStr.

(** One entry of the [messages] list of a chat completion request. *)
Module ChatMessage.
Record t : Type := mk
  { role : string;
    content : string }.
End ChatMessage.

(** The Dialogue Generator: [client.chat.completions.create] applied to
    the request's [messages] (the model, token limit and temperature are
    constants of the call).  It raises, or answers with
    [response.choices[0].message.content], which may be [None]. *)
Definition Generator : Type := list ChatMessage.t -> result (option string).

(** The process environment: the value of [MAX_SESSION_DURATION], if set. *)
Definition Environ : Type := option string.

Definition SYSTEM_PROMPT : string :=
"You are a professional, neutral manager in a 1:1 meeting with your team member.

Guidelines:
- Keep responses brief (1-2 sentences maximum)
- Ask natural follow-up questions based on what the user shares
- Be supportive but professional
- If the user mentions delays or blockers, ask about impact or solutions
- If the user is vague, ask for clarification
- Don't be overly enthusiastic or dramatic
- Use casual professional language (like real workplace conversations)

Remember: You're helping an employee practice workplace communication, so respond as a real manager would.".

Definition FALLBACK_RESPONSE : string :=
  "I see. Can you tell me more about that?".

Definition WRAP_UP_INSTRUCTION : string :=
  "Wrap up the conversation naturally in 1 sentence. Thank them or say something like 'Thanks for the update' or 'Keep me posted'".

(** [len(session.conversation_history) // 2] *)
Definition exchange_count (session : Session.t) : nat :=
  Nat.div (length (Session.conversation_history session)) 2.

(** [os.getenv(name, default)] *)
Definition getenv (environ : Environ) (default : string) : string :=
  match environ with
  | Some v => v
  | None => default
  end.

(** [now] is the reading of [datetime.now()] in the function.  The
    source compares the elapsed seconds, a float, with the limit; here the
    same comparison is made on the exact microsecond counts. *)
Definition _should_end_conversation (environ : Environ) (now : Z)
    (session : Session.t) : result bool :=
  if Nat.leb 6 (exchange_count session) then Ok true
  else
    max_duration <- int (getenv environ "300") ;;
    let elapsed_us := now - Session.start_time session in
    if max_duration * 1000000 <=? elapsed_us then Ok true
    else Ok false.

Definition surprise_keywords (surprise_element : string) : list string :=
  firstn 3 (split (lower surprise_element)).

Definition _surprise_already_introduced (session : Session.t) : bool :=
  if negb (truthy (Scenario.surprise_element (Session.scenario session)))
  then false
  else
    match Scenario.surprise_element (Session.scenario session) with
    | None => false
    | Some surprise_element =>
        existsb
          (fun msg =>
             MessageRole_eqb (Message.role msg) MANAGER
             && existsb (fun keyword => contains keyword (lower (Message.content msg)))
                        (surprise_keywords surprise_element))
          (Session.conversation_history session)
    end.

Definition surprise_instruction (surprise_element : string) : string :=
  nl +++ nl +++ "Now introduce this element naturally: " +++ surprise_element.

(** [messages[-1]["content"] += extra] *)
Fixpoint extend_last_content (messages : list ChatMessage.t) (extra : string)
  : list ChatMessage.t :=
  match messages with
  | [] => []
  | [m] => [ChatMessage.mk (ChatMessage.role m) (ChatMessage.content m +++ extra)]
  | m :: rest => m :: extend_last_content rest extra
  end.

(** The test that guards the surprise instruction. *)
Definition introduces_surprise (session : Session.t) : bool :=
  truthy (Scenario.surprise_element (Session.scenario session))
  && Nat.leb 2 (exchange_count session)
  && Nat.leb (exchange_count session) 4
  && negb (_surprise_already_introduced session).

(** The [messages] list as it stands after the surprise step: the system
    prompt, the scenario context, the history, the current user message,
    the last of them extended with the surprise instruction when due. *)
Definition build_messages (session : Session.t) (user_message : string)
  : list ChatMessage.t :=
  let scenario_context :=
    "Current scenario: " +++ Scenario.primary_topic (Session.scenario session)
    +++ nl +++ "Context: " +++ Scenario.context (Session.scenario session)
    +++ nl +++ "Your first question was: "
    +++ Scenario.initial_prompt (Session.scenario session) in
  let messages :=
    [ChatMessage.mk "system" SYSTEM_PROMPT]
    ++ [ChatMessage.mk "system" scenario_context]
    ++ map (fun msg =>
              ChatMessage.mk
                (if MessageRole_eqb (Message.role msg) MANAGER
                 then "assistant" else "user")
                (Message.content msg))
           (Session.conversation_history session)
    ++ [ChatMessage.mk "user" user_message] in
  if introduces_surprise session then
    match Scenario.surprise_element (Session.scenario session) with
    | Some surprise_element =>
        extend_last_content messages (surprise_instruction surprise_element)
    | None => messages
    end
  else messages.

(** The body of the [try] block of [get_manager_response]. *)
Definition get_manager_response_body (generator : Generator)
    (environ : Environ) (now : Z) (session : Session.t)
    (user_message : string) : result (string * bool) :=
  let messages := build_messages session user_message in
  should_end <- _should_end_conversation environ now session ;;
  let messages :=
    if should_end
    then messages ++ [ChatMessage.mk "system" WRAP_UP_INSTRUCTION]
    else messages in
  response <- generator messages ;;
  match response with
  | None => Raise (AttributeError "'NoneType' object has no attribute 'strip'")
  | Some text => Ok (strip text, should_end)
  end.

Definition get_manager_response (generator : Generator) (environ : Environ)
    (now : Z) (session : Session.t) (user_message : string) : string * bool :=
  match get_manager_response_body generator environ now session user_message with
  | Ok r => r
  | Raise _ => (FALLBACK_RESPONSE, false)
  end.

Definition MOCK_RESPONSES : list string :=
  [ "That sounds good. How's the timeline looking?";
    "I see. Is there anything blocking you?";
    "Understood. What's your plan to move forward?";
    "Makes sense. Do you need any support from me?";
    "Got it. Keep me posted on how it goes.";
    "Thanks for the update. Let me know if anything comes up." ].

Definition mock_surprise_response (surprise_element : string) : string :=
  "Hmm, " +++ lower surprise_element +++ ". How does that affect things?".

(** [responses[response_index]] raises an [IndexError] out of range. *)
Definition mock_get_manager_response (session : Session.t)
    (user_message : string) : result (string * bool) :=
  let response_index :=
    Nat.min (exchange_count session) (length MOCK_RESPONSES - 1) in
  match nth_error MOCK_RESPONSES response_index with
  | None => Raise (IndexError "list index out of range")
  | Some manager_response =>
      let manager_response :=
        if truthy (Scenario.surprise_element (Session.scenario session))
           && Nat.eqb (exchange_count session) 2
           && negb (_surprise_already_introduced session)
        then
          match Scenario.surprise_element (Session.scenario session) with
          | Some surprise_element => mock_surprise_response surprise_element
          | None => manager_response
          end
        else manager_response in
      let should_end := Nat.leb 5 (exchange_count session) in
      Ok (manager_response, should_end)
  end.

End ConversationEngine.

(** ** feedback_analyzer.py *)

Module FeedbackAnalyzer.
Import PyStr.

(** The Performance Scorer: the chat completion call of
    [analyze_conversation], from the request's [messages] to the content of
    the first choice; it may raise and the content may be [None]. *)
Definition Scorer : Type :=
  list ConversationEngine.ChatMessage.t -> result (option string).

(** *** The regular expressions, read on ASCII text *)

(** [label] matched at the head of [text] without regard to case; the
    text that follows it. *)
Fixpoint match_label (label text : string) : option string :=
  match label, text with
  | EmptyString, _ => Some text
  | String _ _, EmptyString => None
  | String a label', String b text' =>
      if Ascii.eqb (lower_char a) (lower_char b)
      then match_label label' text' else None
  end.

(** The longest prefix of digits, and what follows it. *)
Fixpoint span_digits (s : string) : string * string :=
  match s with
  | EmptyString => (EmptyString, EmptyString)
  | String c s' =>
      if is_digit c
      then let '(ds, rest) := span_digits s' in (String c ds, rest)
      else (EmptyString, s)
  end.

Fixpoint digits_value (acc : Z) (s : string) : Z :=
  match s with
  | EmptyString => acc
  | String c s' => digits_value (acc * 10 + digit_value c) s'
  end.

(** The double nearest to the non-negative rational [num / den], as the
    rational it denotes, in lowest terms.  The value is scaled by a power
    of two so that its integer part has 53 bits (fewer below the smallest
    normal number, where the spacing stays [2^-1074]), rounded to the
    nearest integer, a tie going to the even one, and scaled back.  A
    value that rounds beyond the largest double gives [inf], for which
    stands [2^1024], above every double. *)
Definition float_round (num : Z) (den : positive) : Q :=
  if num <=? 0 then 0%Q
  else
    let l := Z.log2 num - Z.log2 (Zpos den) in
    let reaches :=
      if 0 <=? l then Zpos den * 2 ^ l <=? num
      else Zpos den <=? num * 2 ^ (- l) in
    let exponent := Z.max ((if reaches then l else l - 1) - 52) (-1074) in
    let n := if 0 <=? exponent then num else num * 2 ^ (- exponent) in
    let d := if 0 <=? exponent then Zpos den * 2 ^ exponent else Zpos den in
    let q := n / d in
    let r := n mod d in
    let mantissa :=
      if 2 * r <? d then q
      else if d <? 2 * r then q + 1
      else if Z.even q then q else q + 1 in
    if 0 <=? exponent then
      if 2 ^ 1024 <=? mantissa * 2 ^ exponent then Qmake (2 ^ 1024) 1
      else Qmake (mantissa * 2 ^ exponent) 1
    else Qred (Qmake mantissa (Z.to_pos (2 ^ (- exponent)))).

(** [float(text)] for [text] of the shape digits, or digits.digits: the
    double nearest to the decimal value. *)
Definition float_of_decimal (int_digits frac_digits : string) : Q :=
  let scale := 10 ^ Z.of_nat (String.length frac_digits) in
  float_round (digits_value 0 int_digits * scale + digits_value 0 frac_digits)
              (Z.to_pos scale).

(** A match of [category:\s*(\d+(?:\.\d+)?)] starting at the head of
    [text]; the value of its group.  The category is read as a plain
    label, as are the three the analyzer passes: it is to be made of
    letters, digits and underscores, which stand for themselves in the
    pattern. *)
Definition match_score_at (category text : string) : option Q :=
  match match_label (category +++ ":") text with
  | None => None
  | Some rest =>
      match span_digits (lstrip rest) with
      | (EmptyString, _) => None
      | (int_digits, String "."%char after) =>
          match span_digits after with
          | (EmptyString, _) => Some (float_of_decimal int_digits EmptyString)
          | (frac_digits, _) => Some (float_of_decimal int_digits frac_digits)
          end
      | (int_digits, _) => Some (float_of_decimal int_digits EmptyString)
      end
  end.

(** [re.search]: the first position, from the left, with a match. *)
Fixpoint search {A : Type} (match_at : string -> option A) (text : string)
  : option A :=
  match match_at text with
  | Some a => Some a
  | None =>
      match text with
      | EmptyString => None
      | String _ text' => search match_at text'
      end
  end.

Definition Qlt_bool (a b : Q) : bool := negb (Qle_bool b a).

(** [min(max(score, 0), 10)] *)
Definition clamp_score (score : Q) : Q :=
  let m := if Qlt_bool score 0 then 0%Q else score in
  if Qlt_bool 10 m then 10%Q else m.

Definition _extract_score (text category : string) : Q :=
  match search (match_score_at category) text with
  | Some score => clamp_score score
  | None => 7%Q
  end.

(** The shortest non-empty text that is followed by an empty line or by
    the end of the string; [s] is what follows its first character. *)
Fixpoint up_to_blank_line (s : string) : string :=
  match s with
  | EmptyString => EmptyString
  | String c s' =>
      if String.prefix (nl +++ nl) s then EmptyString
      else String c (up_to_blank_line s')
  end.

Fixpoint last_char (s : string) : string :=
  match s with
  | EmptyString => EmptyString
  | String c EmptyString => s
  | String _ s' => last_char s'
  end.

(** A match of [ONE_IMPROVEMENT:\s*(.+?)(?:\n\n|\Z)] (dot matching every
    character) at the head of [text]; its group.  When only white space
    follows the label, the group is the last of it. *)
Definition match_improvement_at (text : string) : option string :=
  match match_label "ONE_IMPROVEMENT:" text with
  | None => None
  | Some EmptyString => None
  | Some rest =>
      match lstrip rest with
      | EmptyString => Some (last_char rest)
      | String c tail => Some (String c (up_to_blank_line tail))
      end
  end.

Definition DEFAULT_IMPROVEMENT : string :=
  "Practice being more specific when describing your work and challenges.".

Definition _extract_improvement (text : string) : string :=
  match search match_improvement_at text with
  | Some group => strip group
  | None => DEFAULT_IMPROVEMENT
  end.

Definition _generate_default_feedback : Feedback.t :=
  Feedback.mk 7%Q 7%Q 7%Q
    "Great practice session! Focus on being more specific when describing your work and any blockers you encounter."
    None.

Definition analysis_prompt (scenario_context conversation_text : string)
  : string :=
  "Analyze this workplace 1:1 conversation for a non-native English speaker practicing professional communication.

" +++ scenario_context +++ "

Conversation:
" +++ conversation_text +++ "

Evaluate on three dimensions (score 0-10):

1. CLARITY (0-10): Did they clearly communicate their main point? Were they specific or vague?
2. FLUENCY (0-10): Natural flow, minimal filler words, coherent sentences
3. PROFESSIONAL (0-10): Workplace-appropriate language, professional tone

Provide scores and identify THE MOST IMPORTANT improvement area. Return ONLY ONE specific, actionable tip.

Format your response as:
CLARITY: [score]
FLUENCY: [score]
PROFESSIONAL: [score]
ONE_IMPROVEMENT: [one specific actionable tip in 1-2 sentences]".

(** The user-authored texts of a session, in order. *)
Definition user_messages (session : Session.t) : list string :=
  map Message.content
      (filter (fun msg => MessageRole_eqb (Message.role msg) USER)
              (Session.conversation_history session)).

(** The body of the [try] block of [analyze_conversation]. *)
Definition analyze_conversation_body (scorer : Scorer) (session : Session.t)
  : result Feedback.t :=
  match user_messages session with
  | [] => Ok _generate_default_feedback
  | msgs =>
      let conversation_text := join nl (map (fun msg => "User: " +++ msg) msgs) in
      let scenario_context :=
        "Scenario: " +++ Scenario.primary_topic (Session.scenario session)
        +++ nl +++ "Context: " +++ Scenario.context (Session.scenario session) in
      response <-
        scorer
          [ ConversationEngine.ChatMessage.mk "system"
              "You are an expert English communication coach for workplace scenarios.";
            ConversationEngine.ChatMessage.mk "user"
              (analysis_prompt scenario_context conversation_text) ] ;;
      match response with
      | None =>
          Raise (AttributeError "'NoneType' object has no attribute 'strip'")
      | Some text =>
          let analysis_text := strip text in
          Ok (Feedback.mk
                (_extract_score analysis_text "CLARITY")
                (_extract_score analysis_text "FLUENCY")
                (_extract_score analysis_text "PROFESSIONAL")
                (_extract_improvement analysis_text)
                (Some analysis_text))
      end
  end.

Definition analyze_conversation (scorer : Scorer) (session : Session.t)
  : Feedback.t :=
  match analyze_conversation_body scorer session with
  | Ok feedback => feedback
  | Raise _ => _generate_default_feedback
  end.

End FeedbackAnalyzer.

(** ** main.py *)

Module Main.
Import PyStr.

(** *** The insertion-ordered dictionary of sessions *)

Definition OrderedDict : Type := list (string * Session.t).

(** [d.get(key)] *)
Fixpoint od_get (d : OrderedDict) (key : string) : option Session.t :=
  match d with
  | [] => None
  | (k, v) :: d' => if String.eqb k key then Some v else od_get d' key
  end.

(** [key in d] *)
Definition od_contains (d : OrderedDict) (key : string) : bool :=
  match od_get d key with
  | Some _ => true
  | None => false
  end.

(** [d[key] = value]: a present key keeps its place, a new one goes last. *)
Fixpoint od_set (d : OrderedDict) (key : string) (value : Session.t)
  : OrderedDict :=
  match d with
  | [] => [(key, value)]
  | (k, v) :: d' =>
      if String.eqb k key then (k, value) :: d'
      else (k, v) :: od_set d' key value
  end.

(** [d.popitem(last=False)] *)
Definition od_popitem_first (d : OrderedDict)
  : result ((string * Session.t) * OrderedDict) :=
  match d with
  | [] => Raise (KeyError "dictionary is empty")
  | kv :: d' => Ok (kv, d')
  end.

(** [del d[key]] *)
Fixpoint od_del (d : OrderedDict) (key : string) : OrderedDict :=
  match d with
  | [] => []
  | (k, v) :: d' =>
      if String.eqb k key then d' else (k, v) :: od_del d' key
  end.

Definition od_keys (d : OrderedDict) : list string := map fst d.

(** *** Module state and configuration *)

Record State : Type := mkState
  { sessions : OrderedDict;
    user_progress : UserProgress.t }.

Definition initial_state : State := mkState [] UserProgress.default.

Definition MAX_SESSIONS_IN_MEMORY : nat := 100.

(** [USE_MOCK_MODE = False]: the endpoints call the real conversation
    engine and analyzer; their mock variants are not reached. *)

(** *** Responses *)

Record StartSessionResponse : Type := mkStartSessionResponse
  { session_id : string;
    scenario_description : string;
    initial_prompt : string;
    helpful_phrases : list string }.

Record GetManagerResponseRequest : Type := mkGetManagerResponseRequest
  { request_session_id : string;
    user_message : string }.

Record GetManagerResponseResponse : Type := mkGetManagerResponseResponse
  { manager_response : string;
    should_end_session : bool }.

Record GetFeedbackResponse : Type := mkGetFeedbackResponse
  { clarity_score : Q;
    fluency_score : Q;
    professional_score : Q;
    one_improvement : string }.

Record UserProgressResponse : Type := mkUserProgressResponse
  { sessions_completed : Z;
    current_level : string;
    streak : Z }.

(** *** Endpoints

    An endpoint takes the state before the request and returns the state
    after it with the response, or with the exception that leaves it. *)

(** [rnd] is the draw of [random.choice], [uuid] the fresh identifier,
    [now_start] and [now_message] the two clock readings. *)
Definition start_session (rnd : nat) (uuid : string)
    (now_start now_message : Z) (st : State)
  : State * result StartSessionResponse :=
  let failed (e : exn) :=
    HTTPException 500 ("Failed to start session: " +++ exn_str e) in
  match Scenarios.select_scenario_for_user rnd (user_progress st) with
  | Raise e => (st, Raise (failed e))
  | Ok scenario =>
      let session := Session.mk uuid scenario [] now_start true in
      let initial_message :=
        Message.mk MANAGER (Scenario.initial_prompt scenario) now_message in
      let session := Session.append session initial_message in
      let stored := od_set (sessions st) uuid session in
      let response :=
        mkStartSessionResponse uuid (Scenario.context scenario)
          (Scenario.initial_prompt scenario)
          (Scenario.helpful_phrases scenario) in
      if Nat.ltb MAX_SESSIONS_IN_MEMORY (length stored) then
        match od_popitem_first stored with
        | Ok (_, kept) => (mkState kept (user_progress st), Ok response)
        | Raise e => (mkState stored (user_progress st), Raise (failed e))
        end
      else (mkState stored (user_progress st), Ok response)
  end.

(** [now_user], [now_check] and [now_reply] are the clock readings at the
    user message, in the end-of-session test, and at the reply.  A stored
    session is always truthy, so [if not session] tests for absence.  The
    session object lives in the dictionary and is changed in place: the
    entry keeps its key and its position. *)
Definition get_manager_response_endpoint
    (generator : ConversationEngine.Generator)
    (environ : ConversationEngine.Environ)
    (now_user now_check now_reply : Z)
    (request : GetManagerResponseRequest) (st : State)
  : State * result GetManagerResponseResponse :=
  match od_get (sessions st) (request_session_id request) with
  | None => (st, Raise (HTTPException 404 "Session not found"))
  | Some session =>
      if negb (Session.is_active session) then
        (st, Raise (HTTPException 400 "Session is no longer active"))
      else
        let user_msg := Message.mk USER (user_message request) now_user in
        let session := Session.append session user_msg in
        let '(reply, should_end) :=
          ConversationEngine.get_manager_response
            generator environ now_check session (user_message request) in
        let manager_message := Message.mk MANAGER reply now_reply in
        let session := Session.append session manager_message in
        let session :=
          if should_end then Session.set_is_active session false else session in
        (mkState (od_set (sessions st) (request_session_id request) session)
                 (user_progress st),
         Ok (mkGetManagerResponseResponse reply should_end))
  end.

Definition get_feedback (scorer : FeedbackAnalyzer.Scorer) (now : Z)
    (session_id : string) (st : State)
  : State * result GetFeedbackResponse :=
  match od_get (sessions st) session_id with
  | None => (st, Raise (HTTPException 404 "Session not found"))
  | Some session =>
      let feedback := FeedbackAnalyzer.analyze_conversation scorer session in
      let up := user_progress st in
      let up :=
        UserProgress.mk (UserProgress.total_sessions up + 1)
          (UserProgress.current_complexity up) (UserProgress.streak_days up)
          (UserProgress.last_session_date up) in
      let up :=
        UserProgress.mk (UserProgress.total_sessions up)
          (UserProgress.current_complexity up) (UserProgress.streak_days up)
          (Some now) in
      let up :=
        UserProgress.mk (UserProgress.total_sessions up)
          (Scenarios.determine_next_complexity up)
          (UserProgress.streak_days up) (UserProgress.last_session_date up) in
      let up :=
        if 0 <? UserProgress.total_sessions up then
          UserProgress.mk (UserProgress.total_sessions up)
            (UserProgress.current_complexity up) 1
            (UserProgress.last_session_date up)
        else up in
      (mkState (sessions st) up,
       Ok (mkGetFeedbackResponse
             (Feedback.clarity_score feedback)
             (Feedback.fluency_score feedback)
             (Feedback.professional_score feedback)
             (Feedback.improvement_tip feedback)))
  end.

Definition get_user_progress (st : State) : UserProgressResponse :=
  mkUserProgressResponse
    (UserProgress.total_sessions (user_progress st))
    (ComplexityLevel_value (UserProgress.current_complexity (user_progress st)))
    (UserProgress.streak_days (user_progress st)).

Definition delete_session (session_id : string) (st : State)
  : State * result string :=
  if od_contains (sessions st) session_id then
    (mkState (od_del (sessions st) session_id) (user_progress st),
     Ok "Session deleted successfully")
  else (st, Raise (HTTPException 404 "Session not found")).

Definition reset_progress (st : State) : State * string :=
  (mkState [] UserProgress.default, "Progress reset successfully").

(** *** The service as a transition system

    The requests the application serves, each with the outside values it
    consumes, and the state after serving a sequence of them. *)

Inductive Request : Type :=
| StartSession (rnd : nat) (uuid : string) (now_start now_message : Z)
| GetManagerResponse (generator : ConversationEngine.Generator)
    (environ : ConversationEngine.Environ) (now_user now_check now_reply : Z)
    (request : GetManagerResponseRequest)
| GetFeedback (scorer : FeedbackAnalyzer.Scorer) (now : Z) (session_id : string)
| DeleteSession (session_id : string)
| ResetProgress.

Definition handle (st : State) (r : Request) : State :=
  match r with
  | StartSession rnd uuid now_start now_message =>
      fst (start_session rnd uuid now_start now_message st)
  | GetManagerResponse generator environ now_user now_check now_reply request =>
      fst (get_manager_response_endpoint
             generator environ now_user now_check now_reply request st)
  | GetFeedback scorer now session_id =>
      fst (get_feedback scorer now session_id st)
  | DeleteSession session_id => fst (delete_session session_id st)
  | ResetProgress => fst (reset_progress st)
  end.

Definition run (st : State) (requests : list Request) : State :=
  fold_left handle requests st.

End Main.

(** * Specification-side definitions *)

(** The tier rule as the specification words it (section 4.1): below 2
    completed sessions EASY, below 5 MEDIUM, and from 5 on HARD on every
    multiple of 3 and MEDIUM otherwise. *)
Definition spec_tier_rule (t : Z) : ComplexityLevel :=
  if t <? 2 then EASY
  else if t <? 5 then MEDIUM
  else if t mod 3 =? 0 then HARD else MEDIUM.

(** The identifiers given to the sessions created by a sequence of
    requests, in creation order. *)
Fixpoint created_ids (requests : list Main.Request) : list string :=
  match requests with
  | [] => []
  | Main.StartSession _ uuid _ _ :: rest => uuid :: created_ids rest
  | _ :: rest => created_ids rest
  end.

(** No request of the sequence deletes a session or resets the service. *)
Fixpoint no_removal (requests : list Main.Request) : bool :=
  match requests with
  | [] => true
  | (Main.DeleteSession _ | Main.ResetProgress) :: _ => false
  | _ :: rest => no_removal rest
  end.

(** [l1] is [l2] with some elements left out, the order kept. *)
Inductive subseq {A : Type} : list A -> list A -> Prop :=
| subseq_nil : subseq [] []
| subseq_skip (x : A) (l1 l2 : list A) : subseq l1 l2 -> subseq l1 (x :: l2)
| subseq_take (x : A) (l1 l2 : list A) : subseq l1 l2 -> subseq (x :: l1) (x :: l2).

(** The last [n] elements of a list. *)
Definition last_n {A : Type} (n : nat) (l : list A) : list A :=
  skipn (length l - n) l.

(** A collaborator fails on a request when it raises or when its answer
    carries no text. *)
Definition fails_on (collaborator : ConversationEngine.Generator)
    (messages : list ConversationEngine.ChatMessage.t) : Prop :=
  match collaborator messages with
  | Ok (Some _) => False
  | _ => True
  end.

(** The latest user text of an outgoing generation request: the content
    of its last message. *)
Definition request_text (messages : list ConversationEngine.ChatMessage.t)
  : string :=
  ConversationEngine.ChatMessage.content
    (last messages (ConversationEngine.ChatMessage.mk "" "")).



(** One of the leading keywords of the surprise element (its first three
    white-space separated tokens, in lower case) occurs in the lower-cased
    text of some MANAGER turn of the history. *)
Definition keyword_seen (surprise_element : string)
    (history : list Message.t) : Prop :=
  exists msg keyword,
    In msg history
    /\ Message.role msg = MANAGER
    /\ In keyword (firstn 3 (PyStr.split (PyStr.lower surprise_element)))
    /\ PyStr.contains keyword (PyStr.lower (Message.content msg)) = true.

(** Every character of [s] satisfies [p]. *)
Fixpoint all_chars (p : ascii -> bool) (s : string) : bool :=
  match s with
  | EmptyString => true
  | String c s' => p c && all_chars p s'
  end.

Definition flip_role (r : MessageRole) : MessageRole :=
  match r with MANAGER => USER | USER => MANAGER end.

(** A label made of ASCII letters, digits and underscores: the
    characters that stand for themselves in a regular expression. *)
Definition is_word_char (c : ascii) : bool :=
  PyStr.is_digit c
  || (Nat.leb 65 (PyStr.code c) && Nat.leb (PyStr.code c) 90)
  || (Nat.leb 97 (PyStr.code c) && Nat.leb (PyStr.code c) 122)
  || Ascii.eqb c "_"%char.

(** The first character of [s] satisfies [p]. *)
Definition head_is (p : ascii -> bool) (s : string) : bool :=
  match s with
  | EmptyString => false
  | String c _ => p c
  end.

(** A decimal numeral from its integer digits and, when there are any,
    its fraction digits. *)
Definition decimal_text (int_digits frac_digits : string) : string :=
  match frac_digits with
  | EmptyString => int_digits
  | _ => String.append int_digits (String "."%char frac_digits)
  end.

(** The text [rest] written after a numeral would be read as part of it:
    it starts with a digit or, after a numeral without fraction, with a
    point and a digit. *)
Definition continues_number (frac_digits rest : string) : bool :=
  head_is PyStr.is_digit rest
  || match frac_digits, rest with
     | EmptyString, String c after =>
         Ascii.eqb c "."%char && head_is PyStr.is_digit after
     | _, _ => false
     end.

(** An analysis written in the format the prompt asks for. *)
Definition formatted_answer (clarity fluency professional tip : string)
  : string :=
  String.append "CLARITY: " (String.append clarity (String.append PyStr.nl
  (String.append "FLUENCY: " (String.append fluency (String.append PyStr.nl
  (String.append "PROFESSIONAL: " (String.append professional
  (String.append PyStr.nl (String.append "ONE_IMPROVEMENT: " tip))))))))).

Definition plain_label (label : string) : bool := all_chars is_word_char label.

(** The roles of a history alternate, the first one being [first]. *)
Fixpoint alternates (first : MessageRole) (history : list Message.t) : bool :=
  match history with
  | [] => true
  | msg :: rest =>
      MessageRole_eqb (Message.role msg) first
      && alternates (flip_role first) rest
  end.

(** A stored session is well formed: it is stored under its own
    identifier, its scenario is one of the catalog, its history opens with
    the scenario's opening line said by the manager, the roles alternate
    from there, and the history ends on a manager turn (its length is
    odd). *)
Definition well_formed_entry (entry : string * Session.t) : Prop :=
  let '(key, session) := entry in
  Session.id session = key
  /\ In (Session.scenario session) Scenarios.SCENARIOS
  /\ (exists t rest,
        Session.conversation_history session
        = Message.mk MANAGER
            (Scenario.initial_prompt (Session.scenario session)) t :: rest)
  /\ alternates MANAGER (Session.conversation_history session) = true
  /\ Nat.Odd (length (Session.conversation_history session)).

(** The progress record is consistent: the counter is not negative, the
    level is the one the counter gives, the streak is 1 once a session
    was completed and 0 before. *)
Definition consistent_progress (up : UserProgress.t) : Prop :=
  0 <= UserProgress.total_sessions up
  /\ UserProgress.current_complexity up = Scenarios.determine_next_complexity up
  /\ UserProgress.streak_days up
     = (if 0 <? UserProgress.total_sessions up then 1 else 0).

(** What every state of the service satisfies. *)
Definition service_invariant (st : Main.State) : Prop :=
  NoDup (Main.od_keys (Main.sessions st))
  /\ Forall well_formed_entry (Main.sessions st)
  /\ (length (Main.sessions st) <= Main.MAX_SESSIONS_IN_MEMORY)%nat
  /\ consistent_progress (Main.user_progress st).

(** ** Sample runs *)

Module Sample.
Import Main.

Definition answering : ConversationEngine.Generator :=
  fun _ => Ok (Some " Noted. What is next? ").

Definition failing : ConversationEngine.Generator :=
  fun _ => Raise (APIError "request timed out").

Definition turn (generator : ConversationEngine.Generator)
    (session_id text : string) : Request :=
  GetManagerResponse generator None 10 20 30
    (mkGetManagerResponseRequest session_id text).

(** One session, just created. *)
Definition fresh : State := run initial_state [StartSession 0 "s1" 0 5].

(** The same session after six answered turns: it has ended. *)
Definition finished : State :=
  run fresh (repeat (turn answering "s1" "All on track.") 6).

(** A session on a scenario with the surprise element of the
    specification's example, two exchanges in; then the same session
    after a reply of the manager that mentions the deadline. *)
Definition deadline_scenario : Scenario.t :=
  Scenario.mk "sample" "release_plan" MEDIUM
    (Some "deadline moved up significantly")
    "The release is planned for next month."
    "How is the release going?" [].

Definition deadline_session : Session.t :=
  Session.mk "s2" deadline_scenario
    [ Message.mk MANAGER "How is the release going?" 0;
      Message.mk USER "Mostly fine." 1;
      Message.mk MANAGER "Anything worrying you?" 2;
      Message.mk USER "Testing is slow." 3 ]
    0 true.



(** The identifier of the [n]-th created session, and 101 creations with
    a turn submitted to the first session just before the last one. *)
Definition nth_id (n : nat) : string :=
  String.append "session-" (NilEmpty.string_of_uint (Nat.to_uint n)).

Definition creations : list Request :=
  map (fun n => StartSession n (nth_id n) (Z.of_nat n) (Z.of_nat n)) (seq 0 100)
  ++ [turn answering (nth_id 0) "Still here."; StartSession 7 (nth_id 100) 100 100].



(** The requests that lead to [finished], and some that come after. *)
Definition finishing : list Request :=
  StartSession 0 "s1" 0 5 :: repeat (turn answering "s1" "All on track.") 6.

Definition afterwards : list Request :=
  [ turn answering "s1" "One more thing.";
    GetFeedback answering 40 "s1";
    StartSession 3 "s2" 50 55;
    turn failing "s1" "Hello?" ].

(** The deadline session with a manager turn that quotes the surprise
    element in other letter case. *)
Definition quoting_session : Session.t :=
  Session.mk "s2" deadline_scenario
    (Session.conversation_history deadline_session
     ++ [ Message.mk MANAGER "Heads up: the Deadline MOVED UP significantly." 4 ])
    0 true.

(** A scorer that answers in the requested format, with space around. *)
Definition scored_answer : string :=
"  CLARITY: 8
FLUENCY: 12
PROFESSIONAL: 7
ONE_IMPROVEMENT: Give dates when you report a delay.
".

Definition scoring : ConversationEngine.Generator :=
  fun _ => Ok (Some scored_answer).

End Sample.

(** * Properties *)

(** ** Scenario selection *)

Section ScenarioSelection.
Import Scenarios.

Lemma ComplexityLevel_eqb_eq (a b : ComplexityLevel) :
  ComplexityLevel_eqb a b = true <-> a = b.
Proof. destruct a, b; simpl; split; congruence. Qed.

Lemma random_choice_In {A : Type} (rnd : nat) (seq : list A) :
  seq <> [] -> exists a, random_choice rnd seq = Ok a /\ In a seq.
Proof.
  intros Hne. unfold random_choice.
  assert (Hlt : (Nat.modulo rnd (length seq) < length seq)%nat).
  { apply Nat.mod_upper_bound. destruct seq; simpl; congruence. }
  destruct (nth_error seq (Nat.modulo rnd (length seq))) as [a|] eqn:E.
  - exists a. split; [reflexivity | eapply nth_error_In; eassumption].
  - apply nth_error_None in E. lia.
Qed.

Lemma random_choice_empty {A : Type} (rnd : nat) :
  exists msg, @random_choice A rnd [] = Raise (IndexError msg).
Proof. unfold random_choice. destruct (Nat.modulo rnd _); simpl; eauto. Qed.

Lemma get_scenarios_by_complexity_level (c : ComplexityLevel) (s : Scenario.t) :
  In s (get_scenarios_by_complexity c) ->
  In s SCENARIOS /\ Scenario.complexity_level s = c.
Proof.
  unfold get_scenarios_by_complexity. intros H.
  apply filter_In in H. destruct H as [Hin Heq].
  split; [assumption | now apply ComplexityLevel_eqb_eq].
Qed.

Lemma get_scenarios_by_complexity_nonempty (c : ComplexityLevel) :
  get_scenarios_by_complexity c <> [].
Proof. destruct c; discriminate. Qed.

(** The selector always returns a scenario of the catalog, and its tier
    is the one the tier rule gives for the number of completed sessions. *)
Lemma select_scenario_for_user_spec (rnd : nat) (up : UserProgress.t) :
  exists s,
    select_scenario_for_user rnd up = Ok s
    /\ In s SCENARIOS
    /\ Scenario.complexity_level s
       = spec_tier_rule (UserProgress.total_sessions up).
Proof.
  unfold select_scenario_for_user, spec_tier_rule.
  set (t := UserProgress.total_sessions up).
  destruct (t <? 2);
    [| destruct (t <? 5); [| destruct (t mod 3 =? 0)]];
    match goal with
    | |- context [random_choice rnd (get_scenarios_by_complexity ?c)] =>
        destruct (random_choice_In rnd (get_scenarios_by_complexity c)
                    (get_scenarios_by_complexity_nonempty c)) as (s & Hs & Hin);
        apply get_scenarios_by_complexity_level in Hin;
        destruct Hin as [Hin Hc];
        exists s; auto
    end.
Qed.

Lemma determine_next_complexity_eq (up : UserProgress.t) :
  determine_next_complexity up
  = if UserProgress.total_sessions up <? 5
    then spec_tier_rule (UserProgress.total_sessions up)
    else HARD.
Proof.
  unfold determine_next_complexity, spec_tier_rule.
  destruct (UserProgress.total_sessions up <? 2) eqn:E2;
    destruct (UserProgress.total_sessions up <? 5) eqn:E5; try reflexivity.
  apply Z.ltb_lt in E2. apply Z.ltb_ge in E5. lia.
Qed.

(** C1, as amended.  [determine_next_complexity] shares the two boundaries
    of the selector (EASY below 2 completed sessions, MEDIUM from 2 to 4)
    but answers HARD for every count from 5 on, without the selector's
    alternation on multiples of 3.  Hence, for every progress value and
    every draw, it agrees with the tier of the selected scenario exactly
    when the count is below 5 or a multiple of 3. *)
Theorem determine_next_complexity_agrees_iff (rnd : nat) (up : UserProgress.t) :
  let t := UserProgress.total_sessions up in
  determine_next_complexity up
  = (if t <? 2 then EASY else if t <? 5 then MEDIUM else HARD)
  /\ exists s,
       select_scenario_for_user rnd up = Ok s
       /\ (determine_next_complexity up = Scenario.complexity_level s
           <-> (t < 5 \/ t mod 3 = 0)).
Proof.
  intros t. split; [reflexivity |].
  destruct (select_scenario_for_user_spec rnd up) as (s & Hs & _ & Hc).
  exists s. split; [assumption |].
  rewrite Hc, determine_next_complexity_eq. fold t.
  unfold spec_tier_rule.
  destruct (t <? 5) eqn:E5.
  - apply Z.ltb_lt in E5. split; auto.
  - apply Z.ltb_ge in E5.
    assert (E2 : (t <? 2) = false) by (apply Z.ltb_ge; lia).
    rewrite E2. destruct (t mod 3 =? 0) eqn:E3.
    + apply Z.eqb_eq in E3. split; auto.
    + apply Z.eqb_neq in E3. split; [discriminate | lia].
Qed.

(** C1, as stated, fails: with 7 completed sessions the selector picks a
    MEDIUM scenario while [determine_next_complexity] answers HARD. *)
Lemma determine_next_complexity_differs_at_7 :
  ~ (forall (rnd : nat) (up : UserProgress.t) (s : Scenario.t),
       select_scenario_for_user rnd up = Ok s ->
       determine_next_complexity up = Scenario.complexity_level s).
Proof.
  intros H.
  pose (up := UserProgress.mk 7 HARD 1 None).
  destruct (select_scenario_for_user_spec 0 up) as (s & Hs & _ & Hc).
  specialize (H 0%nat up s Hs). rewrite Hc in H. discriminate H.
Qed.

(** C2.  For every number [t] of completed sessions (in particular for
    every [t] from 0 to 20) and every draw, the selector returns a scenario
    whose tier is EASY iff [t < 2]; MEDIUM iff [2 <= t < 5] or, from 5 on,
    [t mod 3 <> 0]; and HARD iff [t >= 5] and [t mod 3 = 0]. *)
Theorem select_scenario_for_user_tier (rnd : nat) (up : UserProgress.t) :
  let t := UserProgress.total_sessions up in
  exists s,
    select_scenario_for_user rnd up = Ok s
    /\ (Scenario.complexity_level s = EASY <-> t < 2)
    /\ (Scenario.complexity_level s = MEDIUM
        <-> (2 <= t < 5 \/ (5 <= t /\ t mod 3 <> 0)))
    /\ (Scenario.complexity_level s = HARD <-> (5 <= t /\ t mod 3 = 0)).
Proof.
  intros t.
  destruct (select_scenario_for_user_spec rnd up) as (s & Hs & _ & Hc).
  exists s. split; [assumption |]. rewrite Hc. fold t.
  unfold spec_tier_rule.
  destruct (t <? 2) eqn:E2; [apply Z.ltb_lt in E2 | apply Z.ltb_ge in E2].
  { repeat split; intros; try lia; try discriminate. }
  destruct (t <? 5) eqn:E5; [apply Z.ltb_lt in E5 | apply Z.ltb_ge in E5].
  { repeat split; intros; try lia; try discriminate. }
  destruct (t mod 3 =? 0) eqn:E3; [apply Z.eqb_eq in E3 | apply Z.eqb_neq in E3];
    repeat split; intros; try lia; try discriminate.
Qed.

End ScenarioSelection.

(** ** The session store *)

Section SessionStore.
Import Main.

Lemma od_get_set_same (d : OrderedDict) (k : string) (v : Session.t) :
  od_get (od_set d k v) k = Some v.
Proof.
  induction d as [| [k' v'] d IH]; simpl.
  - now rewrite String.eqb_refl.
  - destruct (String.eqb k' k) eqn:E; simpl; rewrite E; auto.
Qed.

Lemma od_get_set_other (d : OrderedDict) (k k' : string) (v : Session.t) :
  k <> k' -> od_get (od_set d k v) k' = od_get d k'.
Proof.
  intros Hne. induction d as [| [k0 v0] d IH]; simpl.
  - destruct (String.eqb k k') eqn:E; [apply String.eqb_eq in E; congruence | reflexivity].
  - destruct (String.eqb k0 k) eqn:E; simpl.
    + apply String.eqb_eq in E. subst k0.
      destruct (String.eqb k k') eqn:E'; [apply String.eqb_eq in E'; congruence | reflexivity].
    + destruct (String.eqb k0 k'); auto.
Qed.

Lemma od_get_None_keys (d : OrderedDict) (k : string) :
  od_get d k = None <-> ~ In k (od_keys d).
Proof.
  induction d as [| [k0 v0] d IH]; simpl.
  - tauto.
  - destruct (String.eqb k0 k) eqn:E.
    + apply String.eqb_eq in E. split; [discriminate | tauto].
    + apply String.eqb_neq in E. rewrite IH. tauto.
Qed.

Lemma od_set_absent (d : OrderedDict) (k : string) (v : Session.t) :
  od_get d k = None -> od_set d k v = d ++ [(k, v)].
Proof.
  induction d as [| [k0 v0] d IH]; simpl; [reflexivity |].
  destruct (String.eqb k0 k); [discriminate |].
  intros H. now rewrite IH.
Qed.

Lemma od_keys_set_present (d : OrderedDict) (k : string) (v v' : Session.t) :
  od_get d k = Some v -> od_keys (od_set d k v') = od_keys d.
Proof.
  induction d as [| [k0 v0] d IH]; simpl; [discriminate |].
  destruct (String.eqb k0 k) eqn:E; simpl; [reflexivity |].
  intros H. f_equal. now apply IH.
Qed.

Lemma od_set_length (d : OrderedDict) (k : string) (v : Session.t) :
  (length (od_set d k v) <= S (length d))%nat.
Proof.
  induction d as [| [k0 v0] d IH]; simpl; [lia |].
  destruct (String.eqb k0 k); simpl; lia.
Qed.

Lemma od_del_length (d : OrderedDict) (k : string) :
  (length (od_del d k) <= length d)%nat.
Proof.
  induction d as [| [k0 v0] d IH]; simpl; [lia |].
  destruct (String.eqb k0 k); simpl; lia.
Qed.

(** What [start_session] does to the store: the new session goes in under
    its identifier and, when that makes more than 100 entries, the first
    entry goes out. *)
Lemma start_session_sessions (rnd : nat) (uuid : string) (t0 t1 : Z) (st : State) :
  exists scenario response,
    let session :=
      Session.mk uuid scenario
        [Message.mk MANAGER (Scenario.initial_prompt scenario) t1] t0 true in
    let stored := od_set (sessions st) uuid session in
    In scenario Scenarios.SCENARIOS
    /\ start_session rnd uuid t0 t1 st
       = (mkState (if Nat.ltb MAX_SESSIONS_IN_MEMORY (length stored)
                   then tl stored else stored)
                  (user_progress st),
          Ok response).
Proof.
  destruct (select_scenario_for_user_spec rnd (user_progress st))
    as (scenario & Hsel & Hin & _).
  exists scenario. eexists. cbv zeta. split; [assumption |].
  unfold start_session. rewrite Hsel. unfold Session.append. simpl app.
  cbv zeta.
  destruct (Nat.ltb MAX_SESSIONS_IN_MEMORY
              (length (od_set (sessions st) uuid _))) eqn:E.
  - destruct (od_set (sessions st) uuid _) as [| kv kept] eqn:Eset.
    + simpl in E. discriminate.
    + simpl. reflexivity.
  - reflexivity.
Qed.

Lemma get_manager_response_endpoint_keys generator environ t0 t1 t2 request st :
  od_keys (sessions (fst (get_manager_response_endpoint
                            generator environ t0 t1 t2 request st)))
  = od_keys (sessions st).
Proof.
  unfold get_manager_response_endpoint.
  destruct (od_get (sessions st) (request_session_id request)) as [session|] eqn:E;
    [| reflexivity].
  destruct (negb (Session.is_active session)); [reflexivity |].
  destruct (ConversationEngine.get_manager_response _ _ _ _ _) as [reply should_end].
  simpl. eapply od_keys_set_present. eassumption.
Qed.

Lemma get_feedback_sessions scorer now session_id st :
  sessions (fst (get_feedback scorer now session_id st)) = sessions st.
Proof.
  unfold get_feedback.
  destruct (od_get (sessions st) session_id); reflexivity.
Qed.

Lemma run_app (st : State) (rs rs' : list Request) :
  run st (rs ++ rs') = run (run st rs) rs'.
Proof. unfold run. apply fold_left_app. Qed.

Lemma handle_bounded (st : State) (r : Request) :
  (length (sessions st) <= MAX_SESSIONS_IN_MEMORY)%nat ->
  (length (sessions (handle st r)) <= MAX_SESSIONS_IN_MEMORY)%nat.
Proof.
  intros Hb. destruct r as [rnd uuid t0 t1 | g env t0 t1 t2 req | sc now sid | sid |];
    simpl.
  - destruct (start_session_sessions rnd uuid t0 t1 st)
      as (scenario & response & _ & Heq).
    cbv zeta in Heq. rewrite Heq. simpl.
    destruct (Nat.ltb _ _) eqn:E.
    + pose proof (od_set_length (sessions st) uuid
                    (Session.mk uuid scenario
                       [Message.mk MANAGER (Scenario.initial_prompt scenario) t1]
                       t0 true)) as Hl.
      destruct (od_set _ _ _); simpl in *; lia.
    + apply Nat.ltb_ge in E. exact E.
  - pose proof (get_manager_response_endpoint_keys g env t0 t1 t2 req st) as Hk.
    apply (f_equal (@length string)) in Hk. unfold od_keys in Hk.
    rewrite !length_map in Hk. lia.
  - now rewrite get_feedback_sessions.
  - unfold delete_session. destruct (od_contains _ _); simpl; [| assumption].
    pose proof (od_del_length (sessions st) sid). lia.
  - simpl. unfold MAX_SESSIONS_IN_MEMORY. lia.
Qed.

Lemma run_bounded (rs : list Request) (st : State) :
  (length (sessions st) <= MAX_SESSIONS_IN_MEMORY)%nat ->
  (length (sessions (run st rs)) <= MAX_SESSIONS_IN_MEMORY)%nat.
Proof.
  revert st. induction rs as [| r rs IH]; intros st Hb; simpl; [assumption |].
  apply IH. now apply handle_bounded.
Qed.

Lemma skipn_succ_snoc {A : Type} (k : nat) (l : list A) (x : A) :
  (k < length l)%nat -> skipn (S k) (l ++ [x]) = tl (skipn k l ++ [x]).
Proof.
  revert k. induction l as [| a l IH]; intros k Hk; simpl in Hk; [lia |].
  destruct k as [| k]; [reflexivity |].
  change (skipn (S (S k)) ((a :: l) ++ [x])) with (skipn (S k) (l ++ [x])).
  change (skipn (S k) (a :: l)) with (skipn k l).
  apply IH. lia.
Qed.

Lemma tl_map {A B : Type} (f : A -> B) (l : list A) :
  tl (map f l) = map f (tl l).
Proof. destruct l; reflexivity. Qed.

Lemma last_n_length {A : Type} (n : nat) (l : list A) :
  length (last_n n l) = Nat.min n (length l).
Proof. unfold last_n. rewrite length_skipn. lia. Qed.

Lemma last_n_incl {A : Type} (n : nat) (l : list A) (x : A) :
  In x (last_n n l) -> In x l.
Proof.
  unfold last_n. intros H.
  rewrite <- (firstn_skipn (length l - n) l). apply in_or_app. now right.
Qed.

(** Appending to a window of the last [n] elements: the new element goes
    last and, once the window is full, its first element goes out. *)
Lemma last_n_snoc {A : Type} (n : nat) (l : list A) (x : A) :
  (0 < n)%nat ->
  last_n n (l ++ [x])
  = if Nat.ltb n (length (last_n n l ++ [x]))
    then tl (last_n n l ++ [x]) else last_n n l ++ [x].
Proof.
  intros Hn. rewrite length_app, last_n_length. simpl length.
  unfold last_n. rewrite length_app. simpl length.
  destruct (Nat.ltb n (Nat.min n (length l) + 1)) eqn:E.
  - apply Nat.ltb_lt in E.
    replace (length l + 1 - n)%nat with (S (length l - n)) by lia.
    apply skipn_succ_snoc. lia.
  - apply Nat.ltb_ge in E.
    replace (length l + 1 - n)%nat with 0%nat by lia.
    replace (length l - n)%nat with 0%nat by lia.
    reflexivity.
Qed.

Lemma created_ids_app (rs rs' : list Request) :
  created_ids (rs ++ rs') = created_ids rs ++ created_ids rs'.
Proof.
  induction rs as [| r rs IH]; simpl; [reflexivity |].
  destruct r; simpl; now rewrite ?IH.
Qed.

Lemma no_removal_app (rs rs' : list Request) :
  no_removal (rs ++ rs') = no_removal rs && no_removal rs'.
Proof.
  induction rs as [| r rs IH]; simpl; [reflexivity |].
  destruct r; simpl; auto.
Qed.

(** Without deletions, the store holds the last 100 created sessions, in
    creation order, whatever was read or updated in between. *)
Lemma run_keys_fifo (rs : list Request) :
  no_removal rs = true ->
  NoDup (created_ids rs) ->
  od_keys (sessions (run initial_state rs))
  = last_n MAX_SESSIONS_IN_MEMORY (created_ids rs).
Proof.
  induction rs as [| r rs IH] using rev_ind; intros Hrm Hnd; [reflexivity |].
  rewrite no_removal_app in Hrm. apply andb_true_iff in Hrm.
  destruct Hrm as [Hrm Hr].
  rewrite created_ids_app in Hnd |- *. rewrite run_app.
  set (st := run initial_state rs) in *.
  destruct r as [rnd uuid t0 t1 | g env t0 t1 t2 req | sc now sid | sid |];
    simpl in Hr; try discriminate; simpl created_ids in *.
  - assert (Hnd' : NoDup (created_ids rs)).
    { apply NoDup_remove_1 in Hnd. now rewrite app_nil_r in Hnd. }
    assert (Hfresh : ~ In uuid (created_ids rs)).
    { apply NoDup_remove_2 in Hnd. now rewrite app_nil_r in Hnd. }
    clear Hnd.
    specialize (IH Hrm Hnd').
    assert (Habs : od_get (sessions st) uuid = None).
    { apply od_get_None_keys. rewrite IH. intros Hin.
      apply Hfresh. eapply last_n_incl. eassumption. }
    simpl run.
    destruct (start_session_sessions rnd uuid t0 t1 st)
      as (scenario & response & _ & Heq).
    cbv zeta in Heq. rewrite Heq. clear Heq. simpl fst. simpl sessions.
    rewrite od_set_absent by assumption.
    rewrite last_n_snoc by (unfold MAX_SESSIONS_IN_MEMORY; lia).
    rewrite <- IH.
    replace (length (od_keys (sessions st) ++ [uuid]))
      with (length (sessions st ++ [(uuid,
              Session.mk uuid scenario
                [Message.mk MANAGER (Scenario.initial_prompt scenario) t1]
                t0 true)])).
    2:{ unfold od_keys. rewrite !length_app, length_map. reflexivity. }
    destruct (Nat.ltb _ _).
    + unfold od_keys. rewrite <- tl_map, map_app. reflexivity.
    + unfold od_keys. rewrite map_app. reflexivity.
  - rewrite app_nil_r in *. simpl run.
    rewrite get_manager_response_endpoint_keys. auto.
  - rewrite app_nil_r in *. simpl run.
    rewrite get_feedback_sessions. auto.
Qed.

Fixpoint nodupb (l : list string) : bool :=
  match l with
  | [] => true
  | x :: l' => negb (existsb (String.eqb x) l') && nodupb l'
  end.

Lemma nodupb_sound (l : list string) : nodupb l = true -> NoDup l.
Proof.
  induction l as [| x l IH]; simpl; intros H; constructor.
  - apply andb_true_iff in H. destruct H as [H _].
    intros Hin. apply negb_true_iff in H.
    assert (existsb (String.eqb x) l = true).
    { apply existsb_exists. exists x. split; [assumption | apply String.eqb_refl]. }
    congruence.
  - apply IH. apply andb_true_iff in H. tauto.
Qed.

Lemma subseq_refl {A : Type} (l : list A) : subseq l l.
Proof. induction l; [apply subseq_nil | now apply subseq_take]. Qed.

Lemma subseq_nil_l {A : Type} (l : list A) : subseq [] l.
Proof. induction l; constructor; assumption. Qed.

Lemma subseq_trans {A : Type} (l1 l2 l3 : list A) :
  subseq l1 l2 -> subseq l2 l3 -> subseq l1 l3.
Proof.
  intros H12 H23. revert l1 H12.
  induction H23 as [| x l2 l3 H23 IH | x l2 l3 H23 IH]; intros l1 H12.
  - assumption.
  - constructor. now apply IH.
  - inversion H12; subst.
    + apply subseq_skip. now apply IH.
    + apply subseq_take. now apply IH.
Qed.

Lemma subseq_In {A : Type} (l1 l2 : list A) (x : A) :
  subseq l1 l2 -> In x l1 -> In x l2.
Proof.
  induction 1 as [| y l1 l2 H IH | y l1 l2 H IH]; simpl; intros Hin.
  - assumption.
  - right. now apply IH.
  - destruct Hin as [-> | Hin]; [now left | right; now apply IH].
Qed.

Lemma subseq_snoc {A : Type} (l1 l2 : list A) (x : A) :
  subseq l1 l2 -> subseq (l1 ++ [x]) (l2 ++ [x]).
Proof.
  induction 1; simpl.
  - apply subseq_refl.
  - now apply subseq_skip.
  - now apply subseq_take.
Qed.

Lemma subseq_tl {A : Type} (l : list A) : subseq (tl l) l.
Proof.
  destruct l; simpl; [apply subseq_nil | apply subseq_skip, subseq_refl].
Qed.

Lemma od_del_keys_subseq (d : OrderedDict) (k : string) :
  subseq (od_keys (od_del d k)) (od_keys d).
Proof.
  induction d as [| [k0 v0] d IH]; simpl; [apply subseq_nil |].
  destruct (String.eqb k0 k); simpl.
  - apply subseq_skip, subseq_refl.
  - apply subseq_take. exact IH.
Qed.

(** With fresh identifiers the store is always in creation order, also
    after deletions and resets: its keys are the created identifiers
    with some left out. *)
Lemma run_keys_creation_order (rs : list Request) :
  NoDup (created_ids rs) ->
  subseq (od_keys (sessions (run initial_state rs))) (created_ids rs).
Proof.
  induction rs as [| r rs IH] using rev_ind; intros Hnd; [constructor |].
  rewrite created_ids_app in Hnd |- *. rewrite run_app.
  set (st := run initial_state rs) in *.
  destruct r as [rnd uuid t0 t1 | g env t0 t1 t2 req | sc now sid | sid |];
    simpl created_ids in *; rewrite ?app_nil_r in *; simpl run.
  - assert (Hfresh : ~ In uuid (created_ids rs)).
    { apply NoDup_remove_2 in Hnd. now rewrite app_nil_r in Hnd. }
    assert (Hnd' : NoDup (created_ids rs)).
    { apply NoDup_remove_1 in Hnd. now rewrite app_nil_r in Hnd. }
    specialize (IH Hnd').
    assert (Habs : od_get (sessions st) uuid = None).
    { apply od_get_None_keys. intros Hin. apply Hfresh.
      eapply subseq_In; eassumption. }
    destruct (start_session_sessions rnd uuid t0 t1 st)
      as (scenario & response & _ & Heq).
    cbv zeta in Heq. rewrite Heq. clear Heq. simpl fst. simpl sessions.
    rewrite od_set_absent by assumption.
    assert (Hall : subseq (od_keys (sessions st) ++ [uuid])
                          (created_ids rs ++ [uuid]))
      by now apply subseq_snoc.
    destruct (Nat.ltb _ _).
    + unfold od_keys in *. rewrite <- tl_map, map_app. simpl map.
      eapply subseq_trans; [apply subseq_tl | exact Hall].
    + unfold od_keys in *. rewrite map_app. exact Hall.
  - rewrite get_manager_response_endpoint_keys. auto.
  - rewrite get_feedback_sessions. auto.
  - unfold delete_session. destruct (od_contains _ _); simpl; auto.
    eapply subseq_trans; [apply od_del_keys_subseq | auto].
  - simpl. apply subseq_nil_l.
Qed.

(** Creating a session with a fresh identifier in a full store puts it
    last and removes the first entry, and nothing else. *)
Lemma start_session_full (rnd : nat) (uuid : string) (t0 t1 : Z) (st : State) :
  length (sessions st) = MAX_SESSIONS_IN_MEMORY ->
  od_get (sessions st) uuid = None ->
  od_keys (sessions (fst (start_session rnd uuid t0 t1 st)))
  = tl (od_keys (sessions st)) ++ [uuid].
Proof.
  intros Hlen Habs.
  destruct (start_session_sessions rnd uuid t0 t1 st)
    as (scenario & response & _ & Heq).
  cbv zeta in Heq. rewrite Heq. clear Heq. simpl fst. simpl sessions.
  rewrite od_set_absent by assumption.
  rewrite length_app, Hlen. simpl.
  destruct (sessions st) as [| kv d]; [discriminate Hlen |].
  simpl. unfold od_keys. now rewrite map_app.
Qed.

(** C7.  Started empty, the session store never holds more than 100
    sessions, whatever requests are served.  With fresh identifiers its
    entries are always in creation order, and a creation in a full store
    removes exactly the first of them, the oldest created that is still
    present.  So, when nothing is deleted, the store holds exactly the
    last 100 created sessions, however the sessions were read or updated
    in between: the 101st creation evicts the first-created session. *)
Theorem session_store_bounded_fifo (rs : list Request) :
  (length (sessions (run initial_state rs)) <= 100)%nat
  /\ (NoDup (created_ids rs) ->
      subseq (od_keys (sessions (run initial_state rs))) (created_ids rs)
      /\ (forall rnd uuid t0 t1,
            length (sessions (run initial_state rs)) = 100%nat ->
            ~ In uuid (created_ids rs) ->
            od_keys (sessions (run initial_state
                                 (rs ++ [StartSession rnd uuid t0 t1])))
            = tl (od_keys (sessions (run initial_state rs))) ++ [uuid])
      /\ (no_removal rs = true ->
          od_keys (sessions (run initial_state rs))
          = last_n 100 (created_ids rs))).
Proof.
  split.
  - apply (run_bounded rs initial_state). simpl. lia.
  - intros Hnd.
    pose proof (run_keys_creation_order rs Hnd) as Horder.
    split; [exact Horder |]. split.
    + intros rnd uuid t0 t1 Hlen Hfresh. rewrite run_app. simpl run.
      apply start_session_full; [exact Hlen |].
      apply od_get_None_keys. intros Hin. apply Hfresh.
      eapply subseq_In; eassumption.
    + intros Hrm. now apply run_keys_fifo.
Qed.

End SessionStore.

(** ** The conversation engine *)

Section Conversation.
Import PyStr ConversationEngine.

Lemma MessageRole_eqb_eq (a b : MessageRole) :
  MessageRole_eqb a b = true <-> a = b.
Proof. destruct a, b; simpl; split; congruence. Qed.

Lemma append_length (a b : string) :
  String.length (a +++ b) = (String.length a + String.length b)%nat.
Proof. induction a as [| c a IH]; simpl; [reflexivity | now rewrite IH]. Qed.

Lemma append_neq_self (a b : string) : b <> EmptyString -> a +++ b <> a.
Proof.
  intros Hb Heq. apply (f_equal String.length) in Heq.
  rewrite append_length in Heq. destruct b; [congruence | simpl in Heq; lia].
Qed.

Lemma truthy_Some (e : string) : e <> EmptyString -> truthy (Some e) = true.
Proof. destruct e; [congruence | reflexivity]. Qed.

Lemma extend_last_content_snoc (l : list ChatMessage.t) (m : ChatMessage.t)
    (extra : string) :
  extend_last_content (l ++ [m]) extra
  = l ++ [ChatMessage.mk (ChatMessage.role m) (ChatMessage.content m +++ extra)].
Proof.
  induction l as [| a l IH]; [reflexivity |].
  change ((a :: l) ++ [m]) with (a :: (l ++ [m])).
  simpl extend_last_content. rewrite IH.
  destruct l; reflexivity.
Qed.

(** The end-of-session test answers without reading the clock or the
    environment once six exchanges are on record. *)
Lemma _should_end_conversation_six (environ : Environ) (now : Z)
    (session : Session.t) :
  (6 <= exchange_count session)%nat ->
  _should_end_conversation environ now session = Ok true.
Proof.
  intros H. unfold _should_end_conversation.
  apply Nat.leb_le in H. now rewrite H.
Qed.

(** A failing collaborator always yields the fallback pair. *)
Lemma get_manager_response_fallback (generator : Generator)
    (environ : Environ) (now : Z) (session : Session.t) (text : string) :
  (forall messages, fails_on generator messages) ->
  get_manager_response generator environ now session text
  = (FALLBACK_RESPONSE, false).
Proof.
  intros Hfail. unfold get_manager_response, get_manager_response_body.
  destruct (_should_end_conversation environ now session) as [b | e];
    [| reflexivity].
  simpl bind.
  match goal with
  | |- context [generator ?m] =>
      specialize (Hfail m); unfold fails_on in Hfail;
      destruct (generator m) as [[reply |] | e]
  end; simpl; tauto.
Qed.

(** What the endpoint does on an active stored session: the user turn,
    then the reply of the engine computed on the history that ends with
    that user turn, are appended in place. *)
Lemma get_manager_response_endpoint_active generator environ t0 t1 t2
    (request : Main.GetManagerResponseRequest) (st : Main.State)
    (session : Session.t) :
  Main.od_get (Main.sessions st) (Main.request_session_id request) = Some session ->
  Session.is_active session = true ->
  let with_user :=
    Session.append session (Message.mk USER (Main.user_message request) t0) in
  let result :=
    get_manager_response generator environ t1 with_user
      (Main.user_message request) in
  let with_reply :=
    Session.append with_user (Message.mk MANAGER (fst result) t2) in
  let final :=
    if snd result then Session.set_is_active with_reply false else with_reply in
  Main.get_manager_response_endpoint generator environ t0 t1 t2 request st
  = (Main.mkState
       (Main.od_set (Main.sessions st) (Main.request_session_id request) final)
       (Main.user_progress st),
     Ok (Main.mkGetManagerResponseResponse (fst result) (snd result))).
Proof.
  intros Hget Hact. cbv zeta. unfold Main.get_manager_response_endpoint.
  rewrite Hget, Hact. simpl negb. cbv iota.
  destruct (get_manager_response _ _ _ _ _) as [reply should_end].
  reflexivity.
Qed.

(** C3, as amended.  On an active stored session, submitting a user turn
    succeeds and appends exactly one USER turn carrying the user's text and
    then exactly one MANAGER turn carrying the returned reply: the turn
    count grows by 2.  This holds as well when the collaborator fails; the
    MANAGER turn then carries the fallback reply. *)
Theorem submit_user_turn_appends_two generator environ t0 t1 t2
    (request : Main.GetManagerResponseRequest) (st : Main.State)
    (session : Session.t) :
  Main.od_get (Main.sessions st) (Main.request_session_id request) = Some session ->
  Session.is_active session = true ->
  exists st' reply should_end session',
    Main.get_manager_response_endpoint generator environ t0 t1 t2 request st
    = (st', Ok (Main.mkGetManagerResponseResponse reply should_end))
    /\ Main.od_get (Main.sessions st') (Main.request_session_id request)
       = Some session'
    /\ Session.conversation_history session'
       = Session.conversation_history session
         ++ [Message.mk USER (Main.user_message request) t0;
             Message.mk MANAGER reply t2]
    /\ length (Session.conversation_history session')
       = (length (Session.conversation_history session) + 2)%nat
    /\ ((forall messages, fails_on generator messages) ->
        reply = FALLBACK_RESPONSE).
Proof.
  intros Hget Hact.
  pose proof (get_manager_response_endpoint_active
                generator environ t0 t1 t2 request st session Hget Hact) as Heq.
  cbv zeta in Heq.
  set (with_user :=
         Session.append session (Message.mk USER (Main.user_message request) t0)) in *.
  set (result := get_manager_response generator environ t1 with_user
                   (Main.user_message request)) in *.
  eexists. exists (fst result), (snd result). eexists.
  split; [exact Heq |]. simpl Main.sessions.
  split; [apply od_get_set_same |].
  assert (Hhist :
    forall b : bool,
      Session.conversation_history
        (if b
         then Session.set_is_active
                (Session.append with_user (Message.mk MANAGER (fst result) t2)) false
         else Session.append with_user (Message.mk MANAGER (fst result) t2))
      = Session.conversation_history session
        ++ [Message.mk USER (Main.user_message request) t0;
            Message.mk MANAGER (fst result) t2]).
  { intros b. destruct b; simpl; now rewrite <- app_assoc. }
  split; [apply Hhist |].
  split.
  - rewrite Hhist, length_app. reflexivity.
  - intros Hfail. unfold result.
    now rewrite get_manager_response_fallback.
Qed.

(** C3, as stated, fails: when the collaborator fails, the turn count
    still grows by 2 (the user turn and the fallback reply), not by 1. *)
Lemma submit_user_turn_failure_not_one :
  ~ (forall generator environ t0 t1 t2
       (request : Main.GetManagerResponseRequest) (st : Main.State)
       (session session' : Session.t),
       (forall messages, fails_on generator messages) ->
       Main.od_get (Main.sessions st) (Main.request_session_id request)
       = Some session ->
       Session.is_active session = true ->
       Main.od_get
         (Main.sessions
            (fst (Main.get_manager_response_endpoint
                    generator environ t0 t1 t2 request st)))
         (Main.request_session_id request)
       = Some session' ->
       length (Session.conversation_history session')
       = (length (Session.conversation_history session) + 1)%nat).
Proof.
  intros H.
  pose (st := fst (Main.start_session 0 "s1" 0 0 Main.initial_state)).
  pose (generator := fun _ : list ChatMessage.t =>
                       @Raise (option string) (APIError "timeout")).
  pose (request := Main.mkGetManagerResponseRequest "s1" "It went well.").
  destruct (Main.od_get (Main.sessions st) "s1") as [session |] eqn:Hs;
    [| vm_compute in Hs; discriminate Hs].
  destruct (Main.od_get
              (Main.sessions
                 (fst (Main.get_manager_response_endpoint
                         generator None 1 2 3 request st))) "s1")
    as [session' |] eqn:Hs'; [| vm_compute in Hs'; discriminate Hs'].
  specialize (H generator None 1 2 3 request st session session').
  vm_compute in Hs. injection Hs as <-.
  vm_compute in Hs'. injection Hs' as <-.
  assert (Hf : forall messages, fails_on generator messages)
    by (intros messages; exact I).
  specialize (H Hf eq_refl eq_refl eq_refl).
  simpl in H. discriminate H.
Qed.

(** C4.  When the history, measured with the new user turn on it and
    before the reply, counts at least six exchanges, the end-of-session
    test is true whatever the clock and the configured duration; a reply
    obtained on that call is returned with the end flag set, and the
    request that produced it carried the wrap-up instruction. *)
Theorem should_end_after_six_exchanges (environ : Environ) (now : Z)
    (session : Session.t) :
  (6 <= Nat.div (length (Session.conversation_history session)) 2)%nat ->
  _should_end_conversation environ now session = Ok true
  /\ forall (generator : Generator) (user_text reply : string),
       generator (build_messages session user_text
                  ++ [ChatMessage.mk "system" WRAP_UP_INSTRUCTION])
       = Ok (Some reply) ->
       get_manager_response generator environ now session user_text
       = (strip reply, true).
Proof.
  intros H.
  pose proof (_should_end_conversation_six environ now session H) as Hend.
  split; [assumption |].
  intros generator user_text reply Hgen.
  unfold get_manager_response, get_manager_response_body.
  rewrite Hend. simpl bind. rewrite Hgen. reflexivity.
Qed.

(** The call that puts the sixth exchange on record ends the session:
    when the collaborator answers, the response carries the end flag and
    the stored session is no longer active. *)
Lemma submit_user_turn_sixth_exchange generator environ t0 t1 t2
    (request : Main.GetManagerResponseRequest) (st : Main.State)
    (session : Session.t) (reply : string) :
  Main.od_get (Main.sessions st) (Main.request_session_id request) = Some session ->
  Session.is_active session = true ->
  (6 <= Nat.div (length (Session.conversation_history session) + 1) 2)%nat ->
  (forall messages, generator messages = Ok (Some reply)) ->
  exists st' session',
    Main.get_manager_response_endpoint generator environ t0 t1 t2 request st
    = (st', Ok (Main.mkGetManagerResponseResponse (strip reply) true))
    /\ Main.od_get (Main.sessions st') (Main.request_session_id request)
       = Some session'
    /\ Session.is_active session' = false.
Proof.
  intros Hget Hact Hsix Hgen.
  pose proof (get_manager_response_endpoint_active
                generator environ t0 t1 t2 request st session Hget Hact) as Heq.
  cbv zeta in Heq.
  set (with_user :=
         Session.append session (Message.mk USER (Main.user_message request) t0)) in *.
  assert (Hres : get_manager_response generator environ t1 with_user
                   (Main.user_message request) = (strip reply, true)).
  { unfold get_manager_response, get_manager_response_body.
    rewrite _should_end_conversation_six.
    - simpl bind. now rewrite Hgen.
    - unfold exchange_count, with_user. simpl. now rewrite length_app. }
  rewrite Hres in Heq. simpl fst in Heq. simpl snd in Heq. cbv iota in Heq.
  eexists. eexists. split; [exact Heq |].
  simpl Main.sessions. split; [apply od_get_set_same | reflexivity].
Qed.

(** C5.  A turn submitted to a stored session that has ended is refused
    with the "session inactive" error (status 400), and the whole state,
    that session included, is left as it was. *)
Theorem submit_user_turn_inactive generator environ t0 t1 t2
    (request : Main.GetManagerResponseRequest) (st : Main.State)
    (session : Session.t) :
  Main.od_get (Main.sessions st) (Main.request_session_id request) = Some session ->
  Session.is_active session = false ->
  Main.get_manager_response_endpoint generator environ t0 t1 t2 request st
  = (st, Raise (HTTPException 400 "Session is no longer active")).
Proof.
  intros Hget Hact. unfold Main.get_manager_response_endpoint.
  now rewrite Hget, Hact.
Qed.

(** C6.  When the collaborator fails, the engine returns exactly the
    fallback reply with the end flag false; submitted to an active stored
    session, the turn is answered with that pair and the session is still
    active afterwards. *)
Theorem collaborator_failure_fallback generator environ t0 t1 t2
    (request : Main.GetManagerResponseRequest) (st : Main.State)
    (session : Session.t) :
  (forall messages, fails_on generator messages) ->
  Main.od_get (Main.sessions st) (Main.request_session_id request) = Some session ->
  Session.is_active session = true ->
  (forall any_session user_text,
     get_manager_response generator environ t1 any_session user_text
     = ("I see. Can you tell me more about that?", false))
  /\ exists st' session',
       Main.get_manager_response_endpoint generator environ t0 t1 t2 request st
       = (st', Ok (Main.mkGetManagerResponseResponse
                     "I see. Can you tell me more about that?" false))
       /\ Main.od_get (Main.sessions st') (Main.request_session_id request)
          = Some session'
       /\ Session.is_active session' = true.
Proof.
  intros Hfail Hget Hact.
  split.
  { intros any_session user_text.
    now rewrite get_manager_response_fallback. }
  pose proof (get_manager_response_endpoint_active
                generator environ t0 t1 t2 request st session Hget Hact) as Heq.
  cbv zeta in Heq.
  rewrite get_manager_response_fallback in Heq by assumption.
  simpl fst in Heq. simpl snd in Heq. cbv iota in Heq.
  eexists. eexists. split; [exact Heq |].
  simpl Main.sessions. split; [apply od_get_set_same |].
  simpl. exact Hact.
Qed.

Lemma _surprise_already_introduced_iff (session : Session.t) (e : string) :
  Scenario.surprise_element (Session.scenario session) = Some e ->
  e <> EmptyString ->
  _surprise_already_introduced session = true
  <-> keyword_seen e (Session.conversation_history session).
Proof.
  intros He Hne. unfold _surprise_already_introduced, keyword_seen.
  rewrite He, truthy_Some by assumption. simpl negb. cbv iota.
  rewrite existsb_exists. split.
  - intros (msg & Hin & Hb). apply andb_true_iff in Hb.
    destruct Hb as [Hrole Hkw]. apply MessageRole_eqb_eq in Hrole.
    apply existsb_exists in Hkw. destruct Hkw as (keyword & Hk & Hc).
    exists msg, keyword. auto.
  - intros (msg & keyword & Hin & Hrole & Hk & Hc).
    exists msg. split; [assumption |]. apply andb_true_iff. split.
    + now apply MessageRole_eqb_eq.
    + apply existsb_exists. exists keyword. auto.
Qed.

Lemma keyword_seen_app (e : string) (history later : list Message.t) :
  keyword_seen e history -> keyword_seen e (history ++ later).
Proof.
  intros (msg & keyword & Hin & H). exists msg, keyword.
  split; [apply in_or_app; now left | exact H].
Qed.

(** The last message of the request is the user's text, extended with the
    surprise instruction exactly when the guard holds. *)
Lemma build_messages_request_text (session : Session.t) (user_text : string) :
  request_text (build_messages session user_text)
  = if introduces_surprise session then
      match Scenario.surprise_element (Session.scenario session) with
      | Some e => user_text +++ surprise_instruction e
      | None => user_text
      end
    else user_text.
Proof.
  unfold build_messages, request_text.
  rewrite !app_assoc.
  destruct (introduces_surprise session);
    [destruct (Scenario.surprise_element (Session.scenario session)) |];
    rewrite ?extend_last_content_snoc, last_last; reflexivity.
Qed.

(** On the messages built for a session whose scenario has a surprise
    element: the last text is the user's text followed by the instruction
    to introduce that element iff the exchange count is between 2 and 4
    and no leading keyword of the element has occurred in a manager turn;
    otherwise it is the user's text alone, and it stays so on every
    longer history once a manager turn holds such a keyword. *)
Lemma surprise_annotation_on_messages (session : Session.t) (e user_text : string) :
  Scenario.surprise_element (Session.scenario session) = Some e ->
  e <> EmptyString ->
  let annotated (s : Session.t) (text : string) :=
    request_text (build_messages s text) = text +++ surprise_instruction e in
  (annotated session user_text
   <-> ((2 <= Nat.div (length (Session.conversation_history session)) 2 <= 4)%nat
        /\ ~ keyword_seen e (Session.conversation_history session)))
  /\ (~ annotated session user_text ->
      request_text (build_messages session user_text) = user_text)
  /\ (keyword_seen e (Session.conversation_history session) ->
      forall (later : Session.t) (more : list Message.t) (text : string),
        Session.scenario later = Session.scenario session ->
        Session.conversation_history later
        = Session.conversation_history session ++ more ->
        ~ annotated later text
        /\ request_text (build_messages later text) = text).
Proof.
  intros He Hne annotated.
  assert (Hguard : forall s,
    Session.scenario s = Session.scenario session ->
    introduces_surprise s = true
    <-> ((2 <= Nat.div (length (Session.conversation_history s)) 2 <= 4)%nat
         /\ ~ keyword_seen e (Session.conversation_history s))).
  { intros s Hs. unfold introduces_surprise. rewrite Hs, He.
    rewrite truthy_Some by assumption.
    rewrite !andb_true_iff, negb_true_iff, !Nat.leb_le.
    fold (exchange_count s).
    rewrite <- (_surprise_already_introduced_iff s e)
      by (rewrite ?Hs; assumption).
    destruct (_surprise_already_introduced s); intuition congruence. }
  assert (Htext : forall s text,
    Session.scenario s = Session.scenario session ->
    (annotated s text <-> introduces_surprise s = true)
    /\ (introduces_surprise s = false ->
        request_text (build_messages s text) = text)).
  { intros s text Hs. unfold annotated.
    rewrite build_messages_request_text, Hs, He.
    destruct (introduces_surprise s).
    - split; [tauto | discriminate].
    - split; [| reflexivity]. split; [| discriminate].
      intros Heq. symmetry in Heq.
      now apply append_neq_self in Heq. }
  split; [| split].
  - rewrite <- (Hguard session eq_refl). apply Htext. reflexivity.
  - intros Hn. apply Htext; [reflexivity |].
    destruct (introduces_surprise session) eqn:E; [| reflexivity].
    exfalso. apply Hn. now apply Htext.
  - intros Hseen later more text Hs Hh.
    assert (Hoff : introduces_surprise later = false).
    { destruct (introduces_surprise later) eqn:E; [| reflexivity].
      apply (Hguard later Hs) in E. destruct E as [_ E].
      exfalso. apply E. rewrite Hh. now apply keyword_seen_app. }
    split.
    + intros Ha. apply (Htext later text Hs) in Ha. congruence.
    + now apply Htext.
Qed.










End Conversation.

(** ** Scoring and progress *)

Section Scoring.
Import FeedbackAnalyzer.

Lemma user_messages_none (session : Session.t) :
  Forall (fun msg => Message.role msg <> USER)
         (Session.conversation_history session) ->
  user_messages session = [].
Proof.
  unfold user_messages. intros H.
  induction H as [| msg history Hmsg _ IH]; [reflexivity |].
  simpl. destruct (Message.role msg); [exact IH | congruence].
Qed.

(** C9.  When the transcript has no USER turn, and likewise when the
    scorer collaborator fails, the analysis is exactly the default
    feedback: the three scores are 7.0 and the tip is the generic one. *)
Theorem analyze_conversation_default (scorer : Scorer) (session : Session.t) :
  Forall (fun msg => Message.role msg <> USER)
         (Session.conversation_history session)
  \/ (forall messages, fails_on scorer messages) ->
  analyze_conversation scorer session = _generate_default_feedback
  /\ Feedback.clarity_score (analyze_conversation scorer session) = 7%Q
  /\ Feedback.fluency_score (analyze_conversation scorer session) = 7%Q
  /\ Feedback.professional_score (analyze_conversation scorer session) = 7%Q
  /\ Feedback.improvement_tip (analyze_conversation scorer session)
     = "Great practice session! Focus on being more specific when describing your work and any blockers you encounter.".
Proof.
  intros H.
  assert (Heq : analyze_conversation scorer session = _generate_default_feedback).
  { unfold analyze_conversation, analyze_conversation_body.
    destruct H as [Hnone | Hfail].
    - now rewrite user_messages_none.
    - destruct (user_messages session) as [| m ms]; [reflexivity |].
      match goal with
      | |- context [scorer ?req] =>
          specialize (Hfail req); unfold fails_on in Hfail;
          destruct (scorer req) as [[text |] | e]
      end; simpl; tauto. }
  rewrite Heq. repeat split.
Qed.

(** One feedback request on a stored session. *)
Lemma get_feedback_stored (scorer : Scorer) (now : Z) (session_id : string)
    (st : Main.State) (session : Session.t) :
  Main.od_get (Main.sessions st) session_id = Some session ->
  exists response,
    Main.get_feedback scorer now session_id st
    = (Main.mkState (Main.sessions st)
         (UserProgress.mk
            (UserProgress.total_sessions (Main.user_progress st) + 1)
            (if UserProgress.total_sessions (Main.user_progress st) + 1 <? 2
             then EASY
             else if UserProgress.total_sessions (Main.user_progress st) + 1 <? 5
                  then MEDIUM else HARD)
            (if 0 <? UserProgress.total_sessions (Main.user_progress st) + 1
             then 1 else UserProgress.streak_days (Main.user_progress st))
            (Some now)),
       Ok response).
Proof.
  intros Hget. unfold Main.get_feedback. rewrite Hget.
  eexists. cbv zeta. simpl UserProgress.total_sessions.
  unfold Scenarios.determine_next_complexity. simpl UserProgress.total_sessions.
  destruct (0 <? UserProgress.total_sessions (Main.user_progress st) + 1);
    reflexivity.
Qed.

(** C10.  Requesting feedback needs only a stored session, active or
    ended: the request succeeds, adds exactly one to the count of
    completed sessions and leaves the store, hence the session's flag and
    history, unchanged; [n] requests in a row for the same session add
    [n] to the count. *)
Theorem get_feedback_counts_each_request (scorer : Scorer) (now : Z)
    (session_id : string) (st : Main.State) (session : Session.t) :
  Main.od_get (Main.sessions st) session_id = Some session ->
  (exists st' response,
     Main.get_feedback scorer now session_id st = (st', Ok response)
     /\ UserProgress.total_sessions (Main.user_progress st')
        = UserProgress.total_sessions (Main.user_progress st) + 1
     /\ Main.sessions st' = Main.sessions st
     /\ Main.od_get (Main.sessions st') session_id = Some session)
  /\ forall n : nat,
       let st_n :=
         Nat.iter n (fun s => fst (Main.get_feedback scorer now session_id s)) st in
       UserProgress.total_sessions (Main.user_progress st_n)
       = UserProgress.total_sessions (Main.user_progress st) + Z.of_nat n
       /\ Main.od_get (Main.sessions st_n) session_id = Some session.
Proof.
  intros Hget. split.
  - destruct (get_feedback_stored scorer now session_id st session Hget)
      as (response & Heq).
    eexists. exists response. split; [exact Heq |]. simpl. auto.
  - intros n. cbv zeta. induction n as [| n IH].
    + simpl. split; [lia | assumption].
    + rewrite Nat.iter_succ. destruct IH as [IHt IHs].
      destruct (get_feedback_stored scorer now session_id _ session IHs)
        as (response & Heq).
      rewrite Heq. simpl. split; [lia | assumption].
Qed.

End Scoring.

(** ** The theorems on sample runs *)

Section Samples.
Import Main ConversationEngine FeedbackAnalyzer.

Lemma submit_user_turn_appends_two_witness :
  exists st' reply should_end session',
    get_manager_response_endpoint Sample.answering None 10 20 30
      (mkGetManagerResponseRequest "s1" "All on track.") Sample.fresh
    = (st', Ok (mkGetManagerResponseResponse reply should_end))
    /\ od_get (sessions st') "s1" = Some session'
    /\ length (Session.conversation_history session') = 3%nat.
Proof.
  destruct (od_get (sessions Sample.fresh) "s1") as [session |] eqn:Hs;
    [| vm_compute in Hs; discriminate Hs].
  destruct (submit_user_turn_appends_two Sample.answering None 10 20 30
              (mkGetManagerResponseRequest "s1" "All on track.")
              Sample.fresh session Hs)
    as (st' & reply & should_end & session' & Heq & Hget & _ & Hlen & _).
  - vm_compute in Hs. injection Hs as <-. reflexivity.
  - exists st', reply, should_end, session'.
    split; [exact Heq |]. split; [exact Hget |].
    rewrite Hlen. vm_compute in Hs. injection Hs as <-. reflexivity.
Defined.

Lemma should_end_after_six_exchanges_witness :
  exists session,
    od_get (sessions Sample.finished) "s1" = Some session
    /\ _should_end_conversation (Some "not a number") 0 session = Ok true.
Proof.
  destruct (od_get (sessions Sample.finished) "s1") as [session |] eqn:Hs;
    [| vm_compute in Hs; discriminate Hs].
  exists session. split; [reflexivity |].
  apply (should_end_after_six_exchanges (Some "not a number") 0 session).
  vm_compute in Hs. injection Hs as <-. vm_compute. apply le_n.
Defined.

Lemma submit_user_turn_inactive_witness :
  get_manager_response_endpoint Sample.answering None 10 20 30
    (mkGetManagerResponseRequest "s1" "One more thing.") Sample.finished
  = (Sample.finished, Raise (HTTPException 400 "Session is no longer active")).
Proof.
  destruct (od_get (sessions Sample.finished) "s1") as [session |] eqn:Hs;
    [| vm_compute in Hs; discriminate Hs].
  apply (submit_user_turn_inactive Sample.answering None 10 20 30
           (mkGetManagerResponseRequest "s1" "One more thing.")
           Sample.finished session Hs).
  vm_compute in Hs. injection Hs as <-. reflexivity.
Defined.

Lemma collaborator_failure_fallback_witness :
  exists st' session',
    get_manager_response_endpoint Sample.failing None 10 20 30
      (mkGetManagerResponseRequest "s1" "All on track.") Sample.fresh
    = (st', Ok (mkGetManagerResponseResponse
                  "I see. Can you tell me more about that?" false))
    /\ od_get (sessions st') "s1" = Some session'
    /\ Session.is_active session' = true.
Proof.
  destruct (od_get (sessions Sample.fresh) "s1") as [session |] eqn:Hs;
    [| vm_compute in Hs; discriminate Hs].
  apply (collaborator_failure_fallback Sample.failing None 10 20 30
           (mkGetManagerResponseRequest "s1" "All on track.")
           Sample.fresh session).
  - intros messages. exact I.
  - exact Hs.
  - vm_compute in Hs. injection Hs as <-. reflexivity.
Defined.

Lemma session_store_bounded_fifo_witness :
  od_keys (sessions (run initial_state Sample.creations))
  = map Sample.nth_id (seq 1 100).
Proof.
  destruct (session_store_bounded_fifo Sample.creations) as [_ Hfifo].
  destruct Hfifo as (_ & _ & Hlast).
  - apply nodupb_sound. vm_compute. reflexivity.
  - rewrite Hlast.
    + vm_compute. reflexivity.
    + vm_compute. reflexivity.
Defined.


Lemma analyze_conversation_default_witness :
  exists session,
    od_get (sessions Sample.fresh) "s1" = Some session
    /\ analyze_conversation Sample.answering session = _generate_default_feedback
    /\ analyze_conversation Sample.failing Sample.deadline_session
       = _generate_default_feedback.
Proof.
  destruct (od_get (sessions Sample.fresh) "s1") as [session |] eqn:Hs;
    [| vm_compute in Hs; discriminate Hs].
  exists session. split; [reflexivity |]. split.
  - apply (analyze_conversation_default Sample.answering session).
    left. vm_compute in Hs. injection Hs as <-.
    repeat constructor. discriminate.
  - apply (analyze_conversation_default Sample.failing Sample.deadline_session).
    right. intros messages. exact I.
Defined.

Lemma get_feedback_counts_each_request_witness :
  UserProgress.total_sessions
    (user_progress
       (Nat.iter 3 (fun s => fst (get_feedback Sample.answering 40 "s1" s))
          Sample.finished))
  = 3.
Proof.
  destruct (od_get (sessions Sample.finished) "s1") as [session |] eqn:Hs;
    [| vm_compute in Hs; discriminate Hs].
  destruct (get_feedback_counts_each_request Sample.answering 40 "s1"
              Sample.finished session Hs) as [_ Hn].
  destruct (Hn 3%nat) as [Hcount _]. exact Hcount.
Defined.

End Samples.

(** * Further properties of the code *)

(** ** Invariants of the service *)

Section ServiceInvariants.
Import Main.

Lemma od_get_In (d : OrderedDict) (k : string) (v : Session.t) :
  od_get d k = Some v -> In (k, v) d.
Proof.
  induction d as [| [k0 v0] d IH]; simpl; [discriminate |].
  destruct (String.eqb k0 k) eqn:E.
  - apply String.eqb_eq in E. intros [= <-]. subst. now left.
  - intros H. right. now apply IH.
Qed.

Lemma od_keys_set (d : OrderedDict) (k : string) (v : Session.t) :
  od_keys (od_set d k v)
  = if od_contains d k then od_keys d else od_keys d ++ [k].
Proof.
  unfold od_contains. destruct (od_get d k) as [v0 |] eqn:E.
  - eapply od_keys_set_present. eassumption.
  - rewrite od_set_absent by assumption. unfold od_keys. now rewrite map_app.
Qed.

Lemma NoDup_snoc {A : Type} (l : list A) (x : A) :
  NoDup l -> ~ In x l -> NoDup (l ++ [x]).
Proof.
  intros Hnd Hx. apply NoDup_app; [assumption | repeat constructor; simpl; tauto |].
  intros a Ha [<- | []]. contradiction.
Qed.

Lemma od_set_NoDup (d : OrderedDict) (k : string) (v : Session.t) :
  NoDup (od_keys d) -> NoDup (od_keys (od_set d k v)).
Proof.
  intros Hnd. rewrite od_keys_set. unfold od_contains.
  destruct (od_get d k) eqn:E; [assumption |].
  apply NoDup_snoc; [assumption | now apply od_get_None_keys].
Qed.

Lemma NoDup_tl {A : Type} (l : list A) : NoDup l -> NoDup (tl l).
Proof. destruct l; simpl; [auto | now inversion 1]. Qed.

Lemma od_del_keys_In (d : OrderedDict) (k k' : string) :
  In k' (od_keys (od_del d k)) -> In k' (od_keys d).
Proof. apply subseq_In, od_del_keys_subseq. Qed.

Lemma subseq_NoDup {A : Type} (l1 l2 : list A) :
  subseq l1 l2 -> NoDup l2 -> NoDup l1.
Proof.
  induction 1 as [| x l1 l2 H IH | x l1 l2 H IH]; intros Hnd.
  - constructor.
  - inversion Hnd; auto.
  - inversion Hnd; subst. constructor; [| auto].
    intros Hin. eapply subseq_In in Hin; eauto.
Qed.

Lemma od_set_Forall (P : string * Session.t -> Prop) (d : OrderedDict)
    (k : string) (v : Session.t) :
  Forall P d -> P (k, v) -> Forall P (od_set d k v).
Proof.
  intros Hd Hv. induction Hd as [| [k0 v0] d H0 Hd IH]; simpl.
  - repeat constructor. assumption.
  - destruct (String.eqb k0 k) eqn:E.
    + apply String.eqb_eq in E. subst. now constructor.
    + now constructor.
Qed.

Lemma Forall_tl {A : Type} (P : A -> Prop) (l : list A) :
  Forall P l -> Forall P (tl l).
Proof. destruct l; simpl; [auto | now inversion 1]. Qed.

Lemma od_del_Forall (P : string * Session.t -> Prop) (d : OrderedDict)
    (k : string) :
  Forall P d -> Forall P (od_del d k).
Proof.
  induction 1 as [| [k0 v0] d H0 Hd IH]; simpl; [constructor |].
  destruct (String.eqb k0 k); [assumption | now constructor].
Qed.

Lemma alternates_app (first : MessageRole) (l1 l2 : list Message.t) :
  alternates first (l1 ++ l2)
  = alternates first l1
    && alternates (Nat.iter (length l1) flip_role first) l2.
Proof.
  revert first. induction l1 as [| m l1 IH]; intros first; [reflexivity |].
  simpl length. rewrite Nat.iter_succ_r. simpl.
  now rewrite IH, andb_assoc.
Qed.

Lemma iter_flip_odd (n : nat) (r : MessageRole) :
  Nat.Odd n -> Nat.iter n flip_role r = flip_role r.
Proof.
  intros [k ->]. induction k as [| k IH].
  - reflexivity.
  - replace (2 * S k + 1)%nat with (S (S (2 * k + 1))) by lia.
    simpl Nat.iter at 1. simpl in IH |- *. rewrite IH. now destruct r.
Qed.

(** A user turn and a reply appended to a well-formed session leave it
    well formed, whether or not it is also marked as ended. *)
Lemma well_formed_after_turn (key : string) (session : Session.t)
    (user_msg reply : Message.t) (ended : bool) :
  well_formed_entry (key, session) ->
  Message.role user_msg = USER ->
  Message.role reply = MANAGER ->
  let after := Session.append (Session.append session user_msg) reply in
  well_formed_entry
    (key, if ended then Session.set_is_active after false else after).
Proof.
  intros (Hid & Hsc & (t & rest & Hfirst) & Halt & Hodd) Hu Hr after.
  assert (Hwf : well_formed_entry (key, after)).
  { unfold after, well_formed_entry, Session.append. simpl.
    split; [assumption |]. split; [assumption |]. split.
    - exists t, ((rest ++ [user_msg]) ++ [reply]). rewrite Hfirst. reflexivity.
    - rewrite <- app_assoc. split.
      + rewrite alternates_app, Halt, iter_flip_odd by assumption.
        simpl. rewrite Hu, Hr. reflexivity.
      + rewrite length_app. simpl. destruct Hodd as [k Hk].
        exists (S k). lia. }
  destruct ended; [| exact Hwf].
  exact Hwf.
Qed.

Lemma handle_invariant (st : State) (r : Request) :
  service_invariant st -> service_invariant (handle st r).
Proof.
  intros (Hnd & Hwf & Hlen & Hup).
  assert (Hlen' := handle_bounded st r Hlen).
  destruct r as [rnd uuid t0 t1 | g env t0 t1 t2 req | sc now sid | sid |].
  - (* start_session *)
    split; [| split; [| split; [exact Hlen' |]]]; simpl handle.
    + destruct (start_session_sessions rnd uuid t0 t1 st)
        as (scenario & response & _ & Heq).
      cbv zeta in Heq. rewrite Heq. simpl.
      destruct (Nat.ltb _ _).
      * unfold od_keys. rewrite <- tl_map. apply NoDup_tl.
        now apply od_set_NoDup.
      * now apply od_set_NoDup.
    + destruct (start_session_sessions rnd uuid t0 t1 st)
        as (scenario & response & Hin & Heq).
      cbv zeta in Heq. rewrite Heq. simpl.
      assert (Hnew : Forall well_formed_entry
                (od_set (sessions st) uuid
                   (Session.mk uuid scenario
                      [Message.mk MANAGER (Scenario.initial_prompt scenario) t1]
                      t0 true))).
      { apply od_set_Forall; [assumption |].
        simpl. split; [reflexivity |]. split; [assumption |]. split.
        - exists t1, []. reflexivity.
        - split; [reflexivity | exists 0%nat; reflexivity]. }
      destruct (Nat.ltb _ _); [now apply Forall_tl | assumption].
    + destruct (start_session_sessions rnd uuid t0 t1 st)
        as (scenario & response & _ & Heq).
      cbv zeta in Heq. rewrite Heq. simpl. assumption.
  - (* get_manager_response_endpoint *)
    simpl handle.
    split.
    { rewrite get_manager_response_endpoint_keys. assumption. }
    split; [| split; [exact Hlen' |]].
    + unfold get_manager_response_endpoint.
      destruct (od_get (sessions st) (request_session_id req))
        as [session |] eqn:Hget; [| assumption].
      destruct (negb (Session.is_active session)); [assumption |].
      destruct (ConversationEngine.get_manager_response _ _ _ _ _)
        as [reply should_end].
      simpl. apply od_set_Forall; [assumption |].
      apply (well_formed_after_turn (request_session_id req) session
               (Message.mk USER (user_message req) t0)
               (Message.mk MANAGER reply t2) should_end);
        [| reflexivity | reflexivity].
      apply od_get_In in Hget.
      rewrite Forall_forall in Hwf. now apply Hwf.
    + unfold get_manager_response_endpoint.
      destruct (od_get (sessions st) (request_session_id req));
        [| assumption].
      destruct (negb (Session.is_active _)); [assumption |].
      destruct (ConversationEngine.get_manager_response _ _ _ _ _).
      assumption.
  - (* get_feedback *)
    simpl handle. unfold service_invariant. rewrite get_feedback_sessions.
    split; [assumption |]. split; [assumption |]. split; [assumption |].
    unfold get_feedback.
    destruct (od_get (sessions st) sid) as [session |]; [| assumption].
    simpl. destruct Hup as (Hpos & _ & _).
    unfold consistent_progress.
    assert (E : (0 <? UserProgress.total_sessions (user_progress st) + 1) = true)
      by (apply Z.ltb_lt; lia).
    rewrite E. simpl. rewrite E.
    split; [lia |]. split; reflexivity.
  - (* delete_session *)
    clear Hlen'. simpl handle. unfold delete_session.
    destruct (od_contains (sessions st) sid); simpl fst.
    + unfold service_invariant. simpl.
      split; [| split; [| split; [| assumption]]].
      * eapply subseq_NoDup; [apply od_del_keys_subseq | assumption].
      * now apply od_del_Forall.
      * pose proof (od_del_length (sessions st) sid). lia.
    + unfold service_invariant. auto.
  - (* reset_progress *)
    simpl. split; [constructor |]. split; [constructor |].
    split; [simpl; unfold MAX_SESSIONS_IN_MEMORY; lia |].
    unfold consistent_progress. simpl. split; [lia | split; reflexivity].
Qed.

Lemma run_invariant (rs : list Request) (st : State) :
  service_invariant st -> service_invariant (run st rs).
Proof.
  revert st. induction rs as [| r rs IH]; intros st H; simpl; [assumption |].
  apply IH. now apply handle_invariant.
Qed.

Lemma initial_state_invariant : service_invariant initial_state.
Proof.
  split; [constructor |]. split; [constructor |].
  split; [simpl; unfold MAX_SESSIONS_IN_MEMORY; lia |].
  unfold consistent_progress. simpl. split; [lia | split; reflexivity].
Qed.

End ServiceInvariants.

(** ** The life of a session in the store *)

Section SessionLife.
Import Main.

Lemma od_get_tl (d : OrderedDict) (k : string) :
  NoDup (od_keys d) ->
  od_get (tl d) k = None \/ od_get (tl d) k = od_get d k.
Proof.
  destruct d as [| [k0 v0] d]; simpl; [auto |].
  intros Hnd. destruct (String.eqb k0 k) eqn:E; [| auto].
  apply String.eqb_eq in E. subst. left.
  apply od_get_None_keys. now inversion Hnd.
Qed.

Lemma od_get_tl_None (d : OrderedDict) (k : string) :
  od_get d k = None -> od_get (tl d) k = None.
Proof.
  destruct d as [| [k0 v0] d]; simpl; [auto |].
  destruct (String.eqb k0 k); [discriminate | auto].
Qed.

Lemma od_get_del_other (d : OrderedDict) (k k' : string) :
  k <> k' -> od_get (od_del d k) k' = od_get d k'.
Proof.
  intros Hne. induction d as [| [k0 v0] d IH]; simpl; [reflexivity |].
  destruct (String.eqb k0 k) eqn:E.
  - apply String.eqb_eq in E. subst.
    destruct (String.eqb k k') eqn:E'; [| reflexivity].
    apply String.eqb_eq in E'. congruence.
  - simpl. now rewrite IH.
Qed.

Lemma od_get_del_same (d : OrderedDict) (k : string) :
  NoDup (od_keys d) -> od_get (od_del d k) k = None.
Proof.
  induction d as [| [k0 v0] d IH]; simpl; intros Hnd; [reflexivity |].
  inversion Hnd; subst.
  destruct (String.eqb k0 k) eqn:E.
  - apply String.eqb_eq in E. subst. now apply od_get_None_keys.
  - simpl. rewrite E. auto.
Qed.

Lemma od_del_length_present (d : OrderedDict) (k : string) (v : Session.t) :
  od_get d k = Some v -> S (length (od_del d k)) = length d.
Proof.
  induction d as [| [k0 v0] d IH]; simpl; [discriminate |].
  destruct (String.eqb k0 k); [reflexivity |].
  intros H. simpl. now rewrite IH.
Qed.

Lemma od_get_app_last (d : OrderedDict) (k : string) (v : Session.t) :
  od_get d k = None -> od_get (d ++ [(k, v)]) k = Some v.
Proof.
  intros H. rewrite <- (od_set_absent d k v H). apply od_get_set_same.
Qed.

Lemma od_get_tl_app_last (d : OrderedDict) (k : string) (v : Session.t) :
  od_get d k = None -> d <> [] -> od_get (tl (d ++ [(k, v)])) k = Some v.
Proof.
  intros H Hne. destruct d as [| kv d]; [congruence |].
  simpl tl. apply od_get_app_last.
  change d with (tl (kv :: d)). now apply od_get_tl_None.
Qed.

(** The outcome of [start_session], response included. *)
Lemma start_session_result (rnd : nat) (uuid : string) (t0 t1 : Z) (st : State) :
  exists scenario,
    let session :=
      Session.mk uuid scenario
        [Message.mk MANAGER (Scenario.initial_prompt scenario) t1] t0 true in
    let stored := od_set (sessions st) uuid session in
    Scenarios.select_scenario_for_user rnd (user_progress st) = Ok scenario
    /\ start_session rnd uuid t0 t1 st
       = (mkState (if Nat.ltb MAX_SESSIONS_IN_MEMORY (length stored)
                   then tl stored else stored)
                  (user_progress st),
          Ok (mkStartSessionResponse uuid (Scenario.context scenario)
                (Scenario.initial_prompt scenario)
                (Scenario.helpful_phrases scenario))).
Proof.
  destruct (select_scenario_for_user_spec rnd (user_progress st))
    as (scenario & Hsel & _ & _).
  exists scenario. cbv zeta. split; [assumption |].
  unfold start_session. rewrite Hsel. unfold Session.append. simpl app.
  cbv zeta.
  destruct (Nat.ltb MAX_SESSIONS_IN_MEMORY
              (length (od_set (sessions st) uuid _))) eqn:E.
  - destruct (od_set (sessions st) uuid _) as [| kv kept] eqn:Eset.
    + simpl in E. discriminate.
    + simpl. reflexivity.
  - reflexivity.
Qed.

(** X1.  Whatever requests were served before, creating a session succeeds:
    the response carries the given identifier and the opening line,
    context and phrases of a catalog scenario of the tier selected for
    the current progress, and the store then holds under that identifier
    an active session whose only turn is that opening line, said by the
    manager. *)
Theorem start_session_stores_fresh_session (rs : list Request) (rnd : nat)
    (uuid : string) (t0 t1 : Z) :
  let st := run initial_state rs in
  exists st' scenario,
    start_session rnd uuid t0 t1 st
    = (st', Ok (mkStartSessionResponse uuid (Scenario.context scenario)
                  (Scenario.initial_prompt scenario)
                  (Scenario.helpful_phrases scenario)))
    /\ Scenarios.select_scenario_for_user rnd (user_progress st) = Ok scenario
    /\ od_get (sessions st') uuid
       = Some (Session.mk uuid scenario
                 [Message.mk MANAGER (Scenario.initial_prompt scenario) t1]
                 t0 true)
    /\ user_progress st' = user_progress st.
Proof.
  intros st.
  assert (Hlen : (length (sessions st) <= MAX_SESSIONS_IN_MEMORY)%nat).
  { apply run_bounded. simpl. lia. }
  destruct (start_session_result rnd uuid t0 t1 st) as (scenario & Hsel & Heq).
  cbv zeta in Heq. eexists. exists scenario.
  split; [exact Heq |]. clear Heq. split; [exact Hsel |]. simpl.
  split; [| reflexivity].
  destruct (od_get (sessions st) uuid) as [old |] eqn:Hold.
  - assert (E : Nat.ltb MAX_SESSIONS_IN_MEMORY
                  (length (od_set (sessions st) uuid
                     (Session.mk uuid scenario
                        [Message.mk MANAGER (Scenario.initial_prompt scenario) t1]
                        t0 true))) = false).
    { apply Nat.ltb_ge.
      pose proof (od_keys_set_present (sessions st) uuid old
                    (Session.mk uuid scenario
                       [Message.mk MANAGER (Scenario.initial_prompt scenario) t1]
                       t0 true) Hold) as Hk.
      apply (f_equal (@length string)) in Hk. unfold od_keys in Hk.
      rewrite !length_map in Hk. lia. }
    rewrite E. apply od_get_set_same.
  - rewrite od_set_absent by assumption.
    destruct (Nat.ltb _ _) eqn:E.
    + apply od_get_tl_app_last; [assumption |].
      intros Hnil. rewrite Hnil in E. discriminate E.
    + now apply od_get_app_last.
Qed.

(** X2.  In every state the service can reach, each stored session is stored
    under its own identifier, runs a catalog scenario, opens with that
    scenario's opening line said by the manager, alternates manager and
    user turns from there, and ends on a manager turn. *)
Theorem stored_sessions_well_formed (rs : list Request) :
  Forall well_formed_entry (sessions (run initial_state rs)).
Proof.
  apply (run_invariant rs initial_state initial_state_invariant).
Qed.

(** X3.  In every state the service can reach, the progress shown to the user
    is consistent: the number of completed sessions is not negative, the
    level is "easy" below 2 of them, "medium" from 2 to 4 and "hard" from
    5 on, and the streak is 1 once a session was completed, 0 before. *)
Theorem progress_always_consistent (rs : list Request) :
  let shown := get_user_progress (run initial_state rs) in
  0 <= sessions_completed shown
  /\ current_level shown
     = (if sessions_completed shown <? 2 then "easy"
        else if sessions_completed shown <? 5 then "medium" else "hard")
  /\ streak shown = (if 0 <? sessions_completed shown then 1 else 0).
Proof.
  destruct (run_invariant rs initial_state initial_state_invariant)
    as (_ & _ & _ & Hpos & Hlevel & Hstreak).
  cbv zeta. unfold get_user_progress. simpl.
  split; [assumption |]. split; [| assumption].
  rewrite Hlevel. unfold Scenarios.determine_next_complexity.
  destruct (_ <? 2); [reflexivity |]. destruct (_ <? 5); reflexivity.
Qed.

(** X4.  Deleting a stored session succeeds and removes exactly that session:
    it is no longer found, the store has one entry less, every other
    identifier still finds what it found before, and progress is
    untouched. *)
Theorem delete_session_removes_only_it (rs : list Request)
    (session_id : string) (session : Session.t) :
  let st := run initial_state rs in
  od_get (sessions st) session_id = Some session ->
  exists st',
    delete_session session_id st = (st', Ok "Session deleted successfully")
    /\ od_get (sessions st') session_id = None
    /\ S (length (sessions st')) = length (sessions st)
    /\ (forall other, other <> session_id ->
          od_get (sessions st') other = od_get (sessions st) other)
    /\ user_progress st' = user_progress st.
Proof.
  intros st Hget.
  destruct (run_invariant rs initial_state initial_state_invariant)
    as (Hnd & _). fold st in Hnd.
  unfold delete_session, od_contains. rewrite Hget.
  eexists. split; [reflexivity |]. simpl.
  split; [now apply od_get_del_same |].
  split; [eapply od_del_length_present; eassumption |].
  split; [| reflexivity].
  intros other Hne. apply od_get_del_other. congruence.
Qed.

(** X5.  An identifier that is not in the store is refused by the three
    endpoints that take one, with status 404, and the state is left as
    it was; in particular a refused feedback request does not count as a
    completed session. *)
Theorem unknown_session_not_found (st : State) (session_id : string)
    generator environ t0 t1 t2 (text : string) scorer now :
  od_get (sessions st) session_id = None ->
  get_manager_response_endpoint generator environ t0 t1 t2
    (mkGetManagerResponseRequest session_id text) st
  = (st, Raise (HTTPException 404 "Session not found"))
  /\ get_feedback scorer now session_id st
     = (st, Raise (HTTPException 404 "Session not found"))
  /\ delete_session session_id st
     = (st, Raise (HTTPException 404 "Session not found")).
Proof.
  intros Hget.
  unfold get_manager_response_endpoint, get_feedback, delete_session, od_contains.
  simpl request_session_id. rewrite Hget. auto.
Qed.

Lemma handle_absent_stays (st : State) (r : Request) (session_id : string) :
  od_get (sessions st) session_id = None ->
  ~ In session_id (created_ids [r]) ->
  od_get (sessions (handle st r)) session_id = None.
Proof.
  intros Habs Hnew.
  destruct r as [rnd uuid t0 t1 | g env t0 t1 t2 req | sc now sid | sid |];
    simpl handle.
  - destruct (start_session_result rnd uuid t0 t1 st) as (scenario & _ & Heq).
    cbv zeta in Heq. rewrite Heq. clear Heq. simpl.
    assert (Hne : uuid <> session_id) by (simpl in Hnew; tauto).
    assert (Hset : od_get (od_set (sessions st) uuid
                     (Session.mk uuid scenario
                        [Message.mk MANAGER (Scenario.initial_prompt scenario) t1]
                        t0 true)) session_id = None)
      by now rewrite od_get_set_other.
    destruct (Nat.ltb _ _); [now apply od_get_tl_None | assumption].
  - apply od_get_None_keys. rewrite get_manager_response_endpoint_keys.
    now apply od_get_None_keys.
  - now rewrite get_feedback_sessions.
  - unfold delete_session. destruct (od_contains _ _); simpl; [| assumption].
    apply od_get_None_keys. intros Hin. apply od_del_keys_In in Hin.
    revert Hin. now apply od_get_None_keys.
  - reflexivity.
Qed.

Lemma handle_ended_frozen (st : State) (r : Request) (session_id : string)
    (session : Session.t) :
  service_invariant st ->
  od_get (sessions st) session_id = Some session ->
  Session.is_active session = false ->
  ~ In session_id (created_ids [r]) ->
  od_get (sessions (handle st r)) session_id = Some session
  \/ od_get (sessions (handle st r)) session_id = None.
Proof.
  intros (Hnd & _) Hget Hended Hnew.
  destruct r as [rnd uuid t0 t1 | g env t0 t1 t2 req | sc now sid | sid |];
    simpl handle.
  - destruct (start_session_result rnd uuid t0 t1 st) as (scenario & _ & Heq).
    cbv zeta in Heq. rewrite Heq. clear Heq. simpl.
    assert (Hne : uuid <> session_id) by (simpl in Hnew; tauto).
    set (stored := od_set (sessions st) uuid _).
    assert (Hset : od_get stored session_id = Some session)
      by (unfold stored; now rewrite od_get_set_other).
    destruct (Nat.ltb _ _); [| now left].
    destruct (od_get_tl stored session_id) as [H | H].
    + unfold stored. now apply od_set_NoDup.
    + now right.
    + left. congruence.
  - unfold get_manager_response_endpoint.
    destruct (od_get (sessions st) (request_session_id req))
      as [target |] eqn:Htarget; [| now left].
    destruct (Session.is_active target) eqn:Hactive; simpl negb; cbv iota;
      [| now left].
    destruct (ConversationEngine.get_manager_response _ _ _ _ _)
      as [reply should_end]. simpl.
    left. rewrite od_get_set_other; [assumption |].
    intros Heq. rewrite Heq in Htarget. congruence.
  - rewrite get_feedback_sessions. now left.
  - unfold delete_session. destruct (od_contains _ _); simpl; [| now left].
    destruct (String.eqb sid session_id) eqn:E.
    + apply String.eqb_eq in E. subst. right. now apply od_get_del_same.
    + apply String.eqb_neq in E. left. now rewrite od_get_del_other.
  - now right.
Qed.

(** X6.  No way out of the ended state: once a stored session has ended, no
    later request changes it.  As long as its identifier is not given to
    a new session, it is either still stored exactly as it ended, or it
    is gone (deleted, evicted or cleared by a reset). *)
Theorem ended_session_is_frozen (rs later : list Request)
    (session_id : string) (session : Session.t) :
  od_get (sessions (run initial_state rs)) session_id = Some session ->
  Session.is_active session = false ->
  ~ In session_id (created_ids later) ->
  od_get (sessions (run initial_state (rs ++ later))) session_id = Some session
  \/ od_get (sessions (run initial_state (rs ++ later))) session_id = None.
Proof.
  intros Hget Hended Hnew. rewrite run_app.
  pose proof (run_invariant rs initial_state initial_state_invariant) as Hinv.
  set (st := run initial_state rs) in *. clearbody st.
  assert (Hstate : od_get (sessions st) session_id = Some session
                   \/ od_get (sessions st) session_id = None) by now left.
  clear Hget. revert st Hinv Hstate.
  induction later as [| r later IH]; intros st Hinv Hstate; [exact Hstate |].
  simpl run. change (r :: later) with ([r] ++ later) in Hnew.
  rewrite created_ids_app in Hnew.
  apply IH.
  - intros Hin. apply Hnew. apply in_or_app. now right.
  - now apply handle_invariant.
  - assert (Hr : ~ In session_id (created_ids [r])).
    { intros Hin. apply Hnew. apply in_or_app. now left. }
    destruct Hstate as [Hsome | Hnone].
    + now apply handle_ended_frozen.
    + right. now apply handle_absent_stays.
Qed.


End SessionLife.

(** ** Text operations *)

Section Text.
Import PyStr.

Lemma append_assoc (a b c : string) : (a +++ b) +++ c = a +++ (b +++ c).
Proof. induction a as [| x a IH]; simpl; [reflexivity | now rewrite IH]. Qed.

Lemma append_empty_r (a : string) : a +++ EmptyString = a.
Proof. induction a as [| x a IH]; simpl; [reflexivity | now rewrite IH]. Qed.

Lemma prefix_iff (n h : string) :
  String.prefix n h = true <-> exists post, h = n +++ post.
Proof.
  revert n. induction h as [| b h IH]; intros [| a n]; simpl.
  - split; [intros _; now exists EmptyString | reflexivity].
  - split; [discriminate | intros (post & H); discriminate H].
  - split; [intros _; now exists (String b h) | reflexivity].
  - destruct (ascii_dec a b) as [-> | Hne].
    + rewrite IH. split; intros (post & H); exists post; congruence.
    + split; [discriminate | intros (post & H); congruence].
Qed.

Lemma contains_iff (n h : string) :
  contains n h = true <-> exists pre post, h = pre +++ n +++ post.
Proof.
  induction h as [| c h IH].
  - change (contains n EmptyString) with (String.prefix n EmptyString || false).
    rewrite orb_false_r, prefix_iff. split.
    + intros (post & H). now exists EmptyString, post.
    + intros (pre & post & H). destruct pre; [now exists post | discriminate H].
  - change (contains n (String c h))
      with (String.prefix n (String c h) || contains n h).
    rewrite orb_true_iff, prefix_iff, IH. split.
    + intros [(post & H) | (pre & post & H)].
      * now exists EmptyString, post.
      * exists (String c pre), post. simpl. now rewrite H.
    + intros (pre & post & H). destruct pre as [| x pre].
      * left. now exists post.
      * right. exists pre, post. simpl in H. congruence.
Qed.

Lemma lower_append (a b : string) : lower (a +++ b) = lower a +++ lower b.
Proof. induction a as [| x a IH]; simpl; [reflexivity | now rewrite IH]. Qed.

Lemma lower_char_idempotent (c : ascii) : lower_char (lower_char c) = lower_char c.
Proof.
  destruct c as [b0 b1 b2 b3 b4 b5 b6 b7].
  destruct b0, b1, b2, b3, b4, b5, b6, b7; reflexivity.
Qed.

Lemma lower_idempotent (s : string) : lower (lower s) = lower s.
Proof.
  induction s as [| c s IH]; simpl; [reflexivity |].
  now rewrite lower_char_idempotent, IH.
Qed.

(** A text that contains another still does after both are lower-cased
    and after more text is put around it. *)
Lemma contains_lower (n h : string) :
  contains n h = true -> contains (lower n) (lower h) = true.
Proof.
  rewrite !contains_iff. intros (pre & post & ->).
  exists (lower pre), (lower post). now rewrite !lower_append.
Qed.

Lemma contains_trans (a b c : string) :
  contains a b = true -> contains b c = true -> contains a c = true.
Proof.
  rewrite !contains_iff. intros (p & q & ->) (pre & post & ->).
  exists (pre +++ p), (q +++ post). now rewrite !append_assoc.
Qed.

(** Every token of [s.split()] occurs in [s]. *)
Lemma split_from_contains (s : string) (cur : option string) (w : string) :
  In w (split_from cur s) ->
  contains w (match cur with Some u => u +++ s | None => s end) = true.
Proof.
  revert cur. induction s as [| c s IH]; intros cur Hin.
  - destruct cur as [u |]; simpl in Hin; [| contradiction].
    destruct Hin as [<- | []]. apply contains_iff.
    exists EmptyString, EmptyString. simpl. now rewrite !append_empty_r.
  - simpl in Hin. destruct (is_space c).
    + destruct cur as [u |].
      * destruct Hin as [<- | Hin].
        -- apply contains_iff. now exists EmptyString, (String c s).
        -- apply (IH None) in Hin. apply contains_iff in Hin.
           destruct Hin as (pre & post & ->). apply contains_iff.
           exists (u +++ String c pre), post.
           rewrite append_assoc. reflexivity.
      * apply (IH None) in Hin. apply contains_iff in Hin.
        destruct Hin as (pre & post & ->). apply contains_iff.
        now exists (String c pre), post.
    + destruct cur as [u |].
      * apply (IH (Some (u +++ String c EmptyString))) in Hin.
        rewrite append_assoc in Hin. exact Hin.
      * apply (IH (Some (String c EmptyString))) in Hin. exact Hin.
Qed.

Lemma split_contains (s w : string) : In w (split s) -> contains w s = true.
Proof. apply (split_from_contains s None w). Qed.

(** No token of [s.split()] is empty or holds white space. *)
Lemma split_from_tokens (s : string) (cur : option string) (w : string) :
  match cur with
  | Some u => u <> EmptyString /\ all_chars (fun c => negb (is_space c)) u = true
  | None => True
  end ->
  In w (split_from cur s) ->
  w <> EmptyString /\ all_chars (fun c => negb (is_space c)) w = true.
Proof.
  assert (Hsnoc : forall u c,
    all_chars (fun c => negb (is_space c)) u = true ->
    is_space c = false ->
    all_chars (fun c => negb (is_space c)) (u +++ String c EmptyString) = true).
  { intros u c Hu Hc. induction u as [| x u IH]; simpl in *.
    - now rewrite Hc.
    - apply andb_true_iff in Hu. destruct Hu as [Hx Hu].
      rewrite Hx. simpl. now apply IH. }
  revert cur. induction s as [| c s IH]; intros cur Hcur Hin.
  - destruct cur as [u |]; simpl in Hin; [| contradiction].
    destruct Hin as [<- | []]. exact Hcur.
  - simpl in Hin. destruct (is_space c) eqn:Hc.
    + destruct cur as [u |].
      * destruct Hin as [<- | Hin]; [exact Hcur | now apply (IH None)].
      * now apply (IH None).
    + destruct cur as [u |].
      * apply (IH (Some (u +++ String c EmptyString))); [| exact Hin].
        destruct Hcur as [Hne Hu]. split; [| now apply Hsnoc].
        destruct u; discriminate.
      * apply (IH (Some (String c EmptyString))); [| exact Hin].
        split; [discriminate |]. simpl. now rewrite Hc.
Qed.

Lemma firstn_In {A : Type} (n : nat) (l : list A) (x : A) :
  In x (firstn n l) -> In x l.
Proof.
  intros H. rewrite <- (firstn_skipn n l). apply in_or_app. now left.
Qed.

End Text.

(** ** More on the conversation engine *)

Section Engine.
Import PyStr ConversationEngine.

(** X8.  The engine sets the end flag only when the end-of-session test
    holds: six exchanges are on record, or the configured duration (300
    seconds when none is configured) has elapsed since the session
    started. *)
Theorem get_manager_response_never_ends_early (generator : Generator)
    (environ : Environ) (now : Z) (session : Session.t) (text : string) :
  snd (get_manager_response generator environ now session text) = true ->
  (6 <= Nat.div (length (Session.conversation_history session)) 2)%nat
  \/ exists max_duration,
       int (match environ with Some v => v | None => "300" end)
       = Ok max_duration
       /\ max_duration * 1000000 <= now - Session.start_time session.
Proof.
  unfold get_manager_response, get_manager_response_body,
    _should_end_conversation, exchange_count, getenv.
  destruct (Nat.leb 6 _) eqn:E6.
  - intros _. left. now apply Nat.leb_le.
  - destruct (int _) as [d | e]; simpl bind; [| discriminate].
    destruct (d * 1000000 <=? _) eqn:Ed.
    + intros _. right. exists d. split; [reflexivity | now apply Z.leb_le].
    + simpl bind. destruct (generator _) as [[reply |] | e]; simpl; discriminate.
Qed.

(** X9.  With a value of [MAX_SESSION_DURATION] that is not an integer, the
    engine answers every turn before the sixth exchange with the fallback
    reply and no end flag, whatever the collaborator would say. *)
Theorem malformed_duration_gives_fallback (generator : Generator)
    (environ : Environ) (now : Z) (session : Session.t) (text : string)
    (e : exn) :
  int (getenv environ "300") = Raise e ->
  (Nat.div (length (Session.conversation_history session)) 2 < 6)%nat ->
  get_manager_response generator environ now session text
  = (FALLBACK_RESPONSE, false).
Proof.
  intros Hint Hlt.
  unfold get_manager_response, get_manager_response_body,
    _should_end_conversation, exchange_count.
  apply Nat.leb_gt in Hlt. rewrite Hlt, Hint. reflexivity.
Qed.


(** A manager turn that quotes the surprise element, in any letter case,
    marks it as introduced (provided the element has at least one word). *)
Lemma surprise_quote_detected (session : Session.t)
    (surprise_element : string) (msg : Message.t) :
  Scenario.surprise_element (Session.scenario session) = Some surprise_element ->
  surprise_keywords surprise_element <> [] ->
  In msg (Session.conversation_history session) ->
  Message.role msg = MANAGER ->
  contains (lower surprise_element) (lower (Message.content msg)) = true ->
  _surprise_already_introduced session = true.
Proof.
  intros He Hkw Hin Hrole Hquote.
  assert (Hne : surprise_element <> EmptyString).
  { intros ->. now apply Hkw. }
  apply (_surprise_already_introduced_iff session surprise_element He Hne).
  unfold surprise_keywords in Hkw.
  destruct (firstn 3 (split (lower surprise_element))) as [| keyword rest] eqn:Hk;
    [congruence |].
  exists msg, keyword. split; [assumption |]. split; [assumption |].
  rewrite Hk. split; [now left |].
  apply contains_trans with (b := lower surprise_element); [| assumption].
  apply split_contains. apply firstn_In with (n := 3%nat).
  rewrite Hk. now left.
Qed.

(** X11.  A manager turn whose text contains the whole surprise element, in any
    letter case, makes the element count as introduced (provided it has
    at least one word). *)
Theorem quoted_surprise_is_detected (session : Session.t)
    (surprise_element : string) (msg : Message.t) :
  Scenario.surprise_element (Session.scenario session) = Some surprise_element ->
  surprise_keywords surprise_element <> [] ->
  In msg (Session.conversation_history session) ->
  Message.role msg = MANAGER ->
  contains (lower surprise_element) (lower (Message.content msg)) = true ->
  _surprise_already_introduced session = true.
Proof. apply surprise_quote_detected. Qed.

(** X12.  The mock engine never raises, sets the end flag exactly from the
    fifth exchange on, and answers with one of its six canned replies or
    with its surprise sentence. *)
Theorem mock_get_manager_response_total (session : Session.t) (text : string) :
  exists reply,
    mock_get_manager_response session text
    = Ok (reply,
          Nat.leb 5 (Nat.div (length (Session.conversation_history session)) 2))
    /\ (In reply MOCK_RESPONSES
        \/ exists surprise_element,
             Scenario.surprise_element (Session.scenario session)
             = Some surprise_element
             /\ Nat.div (length (Session.conversation_history session)) 2 = 2%nat
             /\ reply = mock_surprise_response surprise_element).
Proof.
  unfold mock_get_manager_response. fold (exchange_count session).
  destruct (nth_error MOCK_RESPONSES
              (Nat.min (exchange_count session) (length MOCK_RESPONSES - 1)))
    as [canned |] eqn:Hnth.
  - apply nth_error_In in Hnth.
    destruct (truthy _ && Nat.eqb (exchange_count session) 2
              && negb (_surprise_already_introduced session)) eqn:Hcond.
    + destruct (Scenario.surprise_element (Session.scenario session))
        as [surprise_element |] eqn:Hs.
      * eexists. split; [reflexivity |]. right. exists surprise_element.
        apply andb_true_iff in Hcond. destruct Hcond as [Hcond _].
        apply andb_true_iff in Hcond. destruct Hcond as [_ Hec].
        apply Nat.eqb_eq in Hec. auto.
      * eexists. split; [reflexivity | now left].
    + eexists. split; [reflexivity | now left].
  - apply nth_error_None in Hnth. simpl in Hnth. lia.
Qed.

(** X13.  When the mock engine introduces the surprise (second exchange,
    element not yet mentioned), its reply, once on the history as a
    manager turn, marks the element as introduced: the mock engine does
    not introduce it a second time. *)
Theorem mock_surprise_is_introduced_once (session : Session.t)
    (text surprise_element : string) (t : Z) :
  Scenario.surprise_element (Session.scenario session) = Some surprise_element ->
  surprise_keywords surprise_element <> [] ->
  Nat.div (length (Session.conversation_history session)) 2 = 2%nat ->
  _surprise_already_introduced session = false ->
  mock_get_manager_response session text
  = Ok (mock_surprise_response surprise_element, false)
  /\ _surprise_already_introduced
       (Session.append session
          (Message.mk MANAGER (mock_surprise_response surprise_element) t))
     = true.
Proof.
  intros He Hkw Hec Hnot. split.
  - unfold mock_get_manager_response, exchange_count.
    rewrite Hec, He, Hnot. simpl nth_error.
    rewrite truthy_Some; [reflexivity |].
    intros ->. now apply Hkw.
  - apply (surprise_quote_detected _ surprise_element
             (Message.mk MANAGER (mock_surprise_response surprise_element) t));
      try assumption; try reflexivity.
    + simpl. apply in_or_app. right. now left.
    + unfold Message.content, mock_surprise_response.
      rewrite !lower_append, lower_idempotent. apply contains_iff.
      eexists. eexists. reflexivity.
Qed.

End Engine.

(** ** More on the feedback analyzer *)

Section Analysis.
Import PyStr FeedbackAnalyzer.

Lemma Qlt_bool_false (a b : Q) : Qlt_bool a b = false -> (b <= a)%Q.
Proof.
  unfold Qlt_bool. intros H. apply negb_false_iff in H.
  now apply Qle_bool_iff.
Qed.

Lemma clamp_score_range (score : Q) :
  (0 <= clamp_score score)%Q /\ (clamp_score score <= 10)%Q.
Proof.
  unfold clamp_score.
  set (m := if Qlt_bool score 0 then 0%Q else score).
  assert (Hm : (0 <= m)%Q).
  { unfold m. destruct (Qlt_bool score 0) eqn:E.
    - apply Qle_refl.
    - now apply Qlt_bool_false. }
  destruct (Qlt_bool 10 m) eqn:E.
  - split; [discriminate | apply Qle_refl].
  - split; [assumption | now apply Qlt_bool_false].
Qed.

Lemma _extract_score_range (text category : string) :
  (0 <= _extract_score text category)%Q /\ (_extract_score text category <= 10)%Q.
Proof.
  unfold _extract_score.
  destruct (search (match_score_at category) text).
  - apply clamp_score_range.
  - split; discriminate.
Qed.

(** X14.  Whatever the scorer collaborator answers, and whatever the session,
    the three scores of the feedback lie between 0 and 10. *)
Theorem analyze_conversation_scores_in_range (scorer : Scorer)
    (session : Session.t) :
  let feedback := analyze_conversation scorer session in
  (0 <= Feedback.clarity_score feedback <= 10)%Q
  /\ (0 <= Feedback.fluency_score feedback <= 10)%Q
  /\ (0 <= Feedback.professional_score feedback <= 10)%Q.
Proof.
  cbv zeta. unfold analyze_conversation, analyze_conversation_body.
  assert (Hdefault :
    (0 <= Feedback.clarity_score _generate_default_feedback <= 10)%Q
    /\ (0 <= Feedback.fluency_score _generate_default_feedback <= 10)%Q
    /\ (0 <= Feedback.professional_score _generate_default_feedback <= 10)%Q).
  { simpl. repeat split; discriminate. }
  destruct (user_messages session) as [| m ms]; [exact Hdefault |].
  destruct (scorer _) as [[text |] | e]; simpl; try exact Hdefault.
  repeat split; apply _extract_score_range.
Qed.

(** The label of a field, when it matches at the head of a text, is there
    up to letter case, and conversely. *)
Lemma match_label_inv (label text rest : string) :
  match_label label text = Some rest ->
  exists head, text = head +++ rest /\ lower head = lower label.
Proof.
  revert text. induction label as [| a label IH]; intros text H; simpl in H.
  - injection H as <-. now exists EmptyString.
  - destruct text as [| b text]; [discriminate |].
    destruct (Ascii.eqb (lower_char a) (lower_char b)) eqn:E; [| discriminate].
    apply Ascii.eqb_eq in E. apply IH in H. destruct H as (head & -> & Hl).
    exists (String b head). simpl. split; [reflexivity | congruence].
Qed.

Lemma match_label_complete (label head rest : string) :
  lower head = lower label -> match_label label (head +++ rest) = Some rest.
Proof.
  revert head. induction label as [| a label IH]; intros head H.
  - destruct head; [reflexivity | discriminate].
  - destruct head as [| b head]; [discriminate |]. simpl in H |- *.
    injection H as Hc Hl. rewrite Hc, Ascii.eqb_refl. now apply IH.
Qed.

Lemma search_None {A : Type} (match_at : string -> option A) (text : string) :
  (forall before after, text = before +++ after -> match_at after = None) ->
  search match_at text = None.
Proof.
  induction text as [| c text IH]; intros H; simpl.
  - now rewrite (H EmptyString EmptyString eq_refl).
  - rewrite (H EmptyString (String c text) eq_refl). apply IH.
    intros before after ->. apply (H (String c before) after). reflexivity.
Qed.

Lemma match_label_absent (label text : string) :
  contains (lower label) (lower text) = false ->
  forall before after, text = before +++ after -> match_label label after = None.
Proof.
  intros Habs before after ->.
  destruct (match_label label after) as [rest |] eqn:E; [| reflexivity].
  apply match_label_inv in E. destruct E as (head & -> & Hl).
  assert (contains (lower label) (lower (before +++ head +++ rest)) = true).
  { apply contains_iff. exists (lower before), (lower rest).
    now rewrite !lower_append, Hl. }
  congruence.
Qed.

(** X15.  For a category made of letters, digits and underscores, a score
    whose label (the category and a colon) does not occur in the
    analysis, in any letter case, is 7.0. *)
Theorem _extract_score_missing_label (text category : string) :
  plain_label category = true ->
  contains (lower (category +++ ":")) (lower text) = false ->
  _extract_score text category = 7%Q.
Proof.
  intros _ Habs. unfold _extract_score. rewrite search_None; [reflexivity |].
  intros before after Heq. unfold match_score_at.
  now rewrite (match_label_absent _ _ Habs before after Heq).
Qed.

(** X16.  When the label of the improvement tip does not occur in the
    analysis, in any letter case, the tip is the fixed generic one. *)
Theorem _extract_improvement_missing_label (text : string) :
  contains "one_improvement:" (lower text) = false ->
  _extract_improvement text
  = "Practice being more specific when describing your work and challenges.".
Proof.
  intros Habs. unfold _extract_improvement. rewrite search_None; [reflexivity |].
  intros before after Heq. unfold match_improvement_at.
  now rewrite (match_label_absent "ONE_IMPROVEMENT:" text Habs before after Heq).
Qed.

Lemma rstrip_idempotent (s : string) : rstrip (rstrip s) = rstrip s.
Proof.
  induction s as [| c s IH]; [reflexivity |]. simpl.
  destruct (rstrip s) as [| x r] eqn:E.
  - destruct (is_space c) eqn:Hc; [reflexivity |]. simpl. now rewrite Hc.
  - simpl in IH |- *. now rewrite IH.
Qed.

Lemma lstrip_head (s : string) (c : ascii) (rest : string) :
  lstrip s = String c rest -> is_space c = false.
Proof.
  induction s as [| x s IH]; simpl; [discriminate |].
  destruct (is_space x) eqn:E; [assumption |]. now intros [= <- _].
Qed.

Lemma rstrip_head (c : ascii) (s : string) :
  is_space c = false -> exists r, rstrip (String c s) = String c r.
Proof.
  intros Hc. simpl. destruct (rstrip s); [rewrite Hc |]; eauto.
Qed.

Lemma strip_idempotent (s : string) : strip (strip s) = strip s.
Proof.
  unfold strip. destruct (lstrip s) as [| c t] eqn:E; [reflexivity |].
  apply lstrip_head in E.
  destruct (rstrip_head c t E) as (r & Hr). rewrite Hr.
  simpl lstrip. rewrite E, <- Hr. apply rstrip_idempotent.
Qed.

(** X17.  The improvement tip never begins or ends with white space: stripping
    it again changes nothing. *)
Theorem _extract_improvement_is_stripped (text : string) :
  strip (_extract_improvement text) = _extract_improvement text.
Proof.
  unfold _extract_improvement.
  destruct (search match_improvement_at text).
  - apply strip_idempotent.
  - reflexivity.
Qed.

Lemma is_digit_not_space (c : ascii) : is_digit c = true -> is_space c = false.
Proof.
  destruct c as [b0 b1 b2 b3 b4 b5 b6 b7].
  destruct b0, b1, b2, b3, b4, b5, b6, b7; vm_compute; congruence.
Qed.

Lemma lstrip_spaces (spaces s : string) :
  all_chars is_space spaces = true -> lstrip (spaces +++ s) = lstrip s.
Proof.
  induction spaces as [| c spaces IH]; simpl; [reflexivity |].
  intros H. apply andb_true_iff in H. destruct H as [Hc H].
  rewrite Hc. now apply IH.
Qed.

Lemma span_digits_app (digits rest : string) :
  all_chars is_digit digits = true ->
  head_is is_digit rest = false ->
  span_digits (digits +++ rest) = (digits, rest).
Proof.
  intros Hd Hr. induction digits as [| c digits IH]; simpl.
  - destruct rest as [| x rest]; [reflexivity |]. simpl in Hr |- *.
    now rewrite Hr.
  - simpl in Hd. apply andb_true_iff in Hd. destruct Hd as [Hc Hd].
    rewrite Hc, IH by assumption. reflexivity.
Qed.

Lemma search_head {A : Type} (match_at : string -> option A) (text : string)
    (a : A) :
  match_at text = Some a -> search match_at text = Some a.
Proof. intros H. destruct text; simpl; now rewrite H. Qed.

(** The match of the score pattern, case by case. *)
Lemma match_score_at_eq (category text : string) :
  match_score_at category text
  = match match_label (category +++ ":") text with
    | None => None
    | Some rest =>
        let '(int_digits, tail) := span_digits (lstrip rest) in
        match int_digits, tail with
        | EmptyString, _ => None
        | _, EmptyString => Some (float_of_decimal int_digits EmptyString)
        | _, String c after =>
            if Ascii.eqb c "."%char
            then Some (float_of_decimal int_digits (fst (span_digits after)))
            else Some (float_of_decimal int_digits EmptyString)
        end
    end.
Proof.
  unfold match_score_at.
  destruct (match_label (category +++ ":") text) as [rest |]; [| reflexivity].
  destruct (span_digits (lstrip rest)) as [int_digits tail].
  destruct int_digits as [| d ds]; [reflexivity |].
  destruct tail as [| c after]; [reflexivity |].
  destruct c as [b0 b1 b2 b3 b4 b5 b6 b7].
  destruct b0, b1, b2, b3, b4, b5, b6, b7; try reflexivity.
  simpl. destruct (span_digits after) as [[| f fs] x]; reflexivity.
Qed.

(** X18.  A score written after its label is read back.  The category is
    made of letters, digits and underscores; the label may be in any
    letter case and must open the analysis; white space may follow the
    colon; the numeral is a run of digits, with or without a fraction; the
    score is the float nearest to its value, cut down to 10 when it is
    larger. *)
Theorem _extract_score_reads_number
    (category label spaces int_digits frac_digits rest : string) :
  plain_label category = true ->
  lower label = lower category ->
  all_chars is_space spaces = true ->
  int_digits <> EmptyString ->
  all_chars is_digit int_digits = true ->
  all_chars is_digit frac_digits = true ->
  continues_number frac_digits rest = false ->
  _extract_score
    (label +++ ":" +++ spaces +++ decimal_text int_digits frac_digits +++ rest)
    category
  = clamp_score (float_of_decimal int_digits frac_digits).
Proof.
  intros _ Hlabel Hspaces Hne Hint Hfrac Hrest.
  apply orb_false_iff in Hrest. destruct Hrest as [Hrest Hpoint].
  unfold _extract_score.
  rewrite (search_head _ _ (float_of_decimal int_digits frac_digits));
    [reflexivity |].
  rewrite match_score_at_eq.
  rewrite <- (append_assoc label ":").
  rewrite match_label_complete by (rewrite !lower_append; now rewrite Hlabel).
  rewrite lstrip_spaces by assumption.
  destruct int_digits as [| d ds]; [congruence |].
  assert (Hd : is_space d = false).
  { apply is_digit_not_space. simpl in Hint.
    apply andb_true_iff in Hint. tauto. }
  destruct frac_digits as [| f fs].
  - unfold decimal_text.
    assert (Hl : lstrip (String d ds +++ rest) = String d ds +++ rest)
      by (simpl; now rewrite Hd).
    rewrite Hl, span_digits_app by assumption.
    destruct rest as [| c after]; [reflexivity |].
    destruct (Ascii.eqb c ".") eqn:Ec; [| reflexivity].
    simpl in Hpoint.
    destruct after as [| x after]; [reflexivity |].
    simpl in Hpoint |- *. rewrite Hpoint. reflexivity.
  - unfold decimal_text. rewrite append_assoc.
    assert (Hl : lstrip (String d ds +++ String "." (String f fs) +++ rest)
                 = String d ds +++ String "." (String f fs +++ rest))
      by (simpl; now rewrite Hd).
    rewrite Hl, span_digits_app by (assumption || reflexivity).
    cbv zeta iota beta. rewrite Ascii.eqb_refl.
    rewrite span_digits_app by assumption. reflexivity.
Qed.

End Analysis.

(** ** More on the scenarios *)

Section Catalog.
Import Scenarios.

(** X19.  Looking a catalog scenario up by its identifier gives that scenario
    back; an identifier that is found belongs to the scenario returned,
    and one that no scenario carries is refused with a [ValueError]. *)
Theorem get_scenario_by_id_round_trip (scenario_id : string) :
  (forall scenario,
     In scenario SCENARIOS ->
     get_scenario_by_id (Scenario.id scenario) = Ok scenario)
  /\ (forall scenario,
        get_scenario_by_id scenario_id = Ok scenario ->
        In scenario SCENARIOS /\ Scenario.id scenario = scenario_id)
  /\ ((forall scenario, In scenario SCENARIOS ->
         Scenario.id scenario <> scenario_id) ->
      exists msg, get_scenario_by_id scenario_id = Raise (ValueError msg)).
Proof.
  split; [| split].
  - intros scenario Hin. simpl in Hin.
    repeat (destruct Hin as [<- | Hin]; [reflexivity |]). contradiction.
  - unfold get_scenario_by_id. intros scenario H.
    destruct (find _ SCENARIOS) as [found |] eqn:E; [| discriminate].
    injection H as <-. apply find_some in E. destruct E as [Hin Heq].
    split; [assumption | now apply String.eqb_eq].
  - intros Hnone. unfold get_scenario_by_id.
    destruct (find _ SCENARIOS) as [found |] eqn:E; [| eauto].
    apply find_some in E. destruct E as [Hin Heq].
    apply String.eqb_eq in Heq. now apply Hnone in Hin.
Qed.

(** X20.  The scenario selected for a user with fewer than 2 completed sessions
    has no surprise element; from 2 completed sessions on it always has
    one, with at least one keyword to detect it by. *)
Theorem selected_scenario_surprise (rnd : nat) (up : UserProgress.t) :
  exists scenario,
    select_scenario_for_user rnd up = Ok scenario
    /\ (UserProgress.total_sessions up < 2 ->
        Scenario.surprise_element scenario = None)
    /\ (2 <= UserProgress.total_sessions up ->
        exists surprise_element,
          Scenario.surprise_element scenario = Some surprise_element
          /\ ConversationEngine.surprise_keywords surprise_element <> []).
Proof.
  destruct (select_scenario_for_user_spec rnd up) as (scenario & Hsel & Hin & Hc).
  exists scenario. split; [assumption |].
  assert (Hcat : match Scenario.complexity_level scenario with
                 | EASY => Scenario.surprise_element scenario = None
                 | _ => exists surprise_element,
                          Scenario.surprise_element scenario = Some surprise_element
                          /\ ConversationEngine.surprise_keywords surprise_element
                             <> []
                 end).
  { clear Hsel Hc. simpl in Hin.
    repeat (destruct Hin as [<- | Hin];
            [first [reflexivity
                   | eexists; split;
                     [reflexivity | vm_compute; discriminate]] |]).
    contradiction. }
  rewrite Hc in Hcat. unfold spec_tier_rule in Hcat.
  split; intros Ht.
  - apply Z.ltb_lt in Ht. now rewrite Ht in Hcat.
  - assert (E : (UserProgress.total_sessions up <? 2) = false)
      by (apply Z.ltb_ge; lia).
    rewrite E in Hcat.
    destruct (_ <? 5); [assumption |]. destruct (_ =? 0); assumption.
Qed.

End Catalog.

(** ** Ending on elapsed time *)

Section Elapsed.
Import PyStr ConversationEngine.

(** X21.  Once the configured duration (300 seconds when none is configured)
    has elapsed since the session started, a turn that the collaborator
    answers ends the session, however few exchanges there were: the reply
    comes back stripped, with the end flag, and the stored session is no
    longer active. *)
Theorem elapsed_duration_ends_session generator environ t0 t1 t2
    (request : Main.GetManagerResponseRequest) (st : Main.State)
    (session : Session.t) (max_duration : Z) (reply : string) :
  Main.od_get (Main.sessions st) (Main.request_session_id request) = Some session ->
  Session.is_active session = true ->
  int (getenv environ "300") = Ok max_duration ->
  max_duration * 1000000 <= t1 - Session.start_time session ->
  (forall messages, generator messages = Ok (Some reply)) ->
  exists st' session',
    Main.get_manager_response_endpoint generator environ t0 t1 t2 request st
    = (st', Ok (Main.mkGetManagerResponseResponse (strip reply) true))
    /\ Main.od_get (Main.sessions st') (Main.request_session_id request)
       = Some session'
    /\ Session.is_active session' = false.
Proof.
  intros Hget Hact Hint Helapsed Hgen.
  pose proof (get_manager_response_endpoint_active
                generator environ t0 t1 t2 request st session Hget Hact) as Heq.
  cbv zeta in Heq.
  set (with_user :=
         Session.append session (Message.mk USER (Main.user_message request) t0)) in *.
  assert (Hend : _should_end_conversation environ t1 with_user = Ok true).
  { unfold _should_end_conversation.
    destruct (Nat.leb 6 _); [reflexivity |].
    rewrite Hint. unfold bind.
    assert (E : (max_duration * 1000000 <=? t1 - Session.start_time with_user) = true)
      by (apply Z.leb_le; exact Helapsed).
    now rewrite E. }
  assert (Hres : get_manager_response generator environ t1 with_user
                   (Main.user_message request) = (strip reply, true)).
  { unfold get_manager_response, get_manager_response_body.
    rewrite Hend. simpl bind. now rewrite Hgen. }
  rewrite Hres in Heq. simpl fst in Heq. simpl snd in Heq. cbv iota in Heq.
  eexists. eexists. split; [exact Heq |].
  simpl Main.sessions. split; [apply od_get_set_same | reflexivity].
Qed.

End Elapsed.

(** ** The further properties on sample runs *)

Section MoreSamples.
Import Main ConversationEngine FeedbackAnalyzer.

Lemma delete_session_removes_only_it_witness :
  exists st',
    delete_session "s1" Sample.finished = (st', Ok "Session deleted successfully")
    /\ od_get (sessions st') "s1" = None.
Proof.
  destruct (od_get (sessions (run initial_state Sample.finishing)) "s1")
    as [session |] eqn:Hs; [| vm_compute in Hs; discriminate Hs].
  destruct (delete_session_removes_only_it Sample.finishing "s1" session Hs)
    as (st' & Hdel & Hgone & _).
  exists st'. split; [exact Hdel | exact Hgone].
Defined.

Lemma unknown_session_not_found_witness :
  get_feedback Sample.answering 40 "s7" Sample.finished
  = (Sample.finished, Raise (HTTPException 404 "Session not found")).
Proof.
  destruct (unknown_session_not_found Sample.finished "s7"
              Sample.answering None 10 20 30 "Hello" Sample.answering 40)
    as (_ & Hfeedback & _); [reflexivity | exact Hfeedback].
Defined.

Lemma ended_session_is_frozen_witness :
  exists session,
    od_get (sessions (run initial_state Sample.finishing)) "s1" = Some session
    /\ Session.is_active session = false
    /\ od_get (sessions (run initial_state
                           (Sample.finishing ++ Sample.afterwards))) "s1"
       = Some session.
Proof.
  destruct (od_get (sessions (run initial_state Sample.finishing)) "s1")
    as [session |] eqn:Hs; [| vm_compute in Hs; discriminate Hs].
  exists session. split; [reflexivity |].
  assert (Hended : Session.is_active session = false).
  { vm_compute in Hs. injection Hs as <-. reflexivity. }
  split; [exact Hended |].
  destruct (ended_session_is_frozen Sample.finishing Sample.afterwards
              "s1" session Hs Hended) as [Hsame | Hgone].
  - vm_compute. intros [H | []]. discriminate H.
  - exact Hsame.
  - vm_compute in Hgone. discriminate Hgone.
Defined.


Lemma get_manager_response_never_ends_early_witness :
  (6 <= Nat.div (length (Session.conversation_history Sample.deadline_session)) 2)%nat
  \/ exists max_duration,
       PyStr.int "120" = Ok max_duration
       /\ max_duration * 1000000 <= 130000000 - 0.
Proof.
  apply (get_manager_response_never_ends_early Sample.answering (Some "120")
           130000000 Sample.deadline_session "We may slip.").
  reflexivity.
Defined.

Lemma malformed_duration_gives_fallback_witness :
  get_manager_response Sample.answering (Some "five minutes") 20
    Sample.deadline_session "We may slip."
  = (FALLBACK_RESPONSE, false).
Proof.
  eapply (malformed_duration_gives_fallback Sample.answering
            (Some "five minutes") 20 Sample.deadline_session "We may slip.").
  - reflexivity.
  - vm_compute. repeat constructor.
Defined.


Lemma quoted_surprise_is_detected_witness :
  _surprise_already_introduced Sample.quoting_session = true.
Proof.
  apply (quoted_surprise_is_detected Sample.quoting_session
           "deadline moved up significantly"
           (Message.mk MANAGER "Heads up: the Deadline MOVED UP significantly." 4)).
  - reflexivity.
  - discriminate.
  - simpl. auto 10.
  - reflexivity.
  - reflexivity.
Defined.

Lemma mock_surprise_is_introduced_once_witness :
  mock_get_manager_response Sample.deadline_session "We may slip."
  = Ok ("Hmm, deadline moved up significantly. How does that affect things?",
        false).
Proof.
  apply (mock_surprise_is_introduced_once Sample.deadline_session "We may slip."
           "deadline moved up significantly" 4).
  - reflexivity.
  - discriminate.
  - reflexivity.
  - reflexivity.
Defined.

Lemma _extract_score_missing_label_witness :
  _extract_score "Nice work overall. Fluency: 9" "CLARITY" = 7%Q.
Proof.
  apply (_extract_score_missing_label "Nice work overall. Fluency: 9" "CLARITY");
    reflexivity.
Defined.

Lemma _extract_improvement_missing_label_witness :
  _extract_improvement "CLARITY: 8"
  = "Practice being more specific when describing your work and challenges.".
Proof.
  apply (_extract_improvement_missing_label "CLARITY: 8"). reflexivity.
Defined.

Lemma _extract_score_reads_number_witness :
  _extract_score "Clarity:  8.5 out of 10" "CLARITY" = (17 # 2)%Q
  /\ _extract_score "fluency: 12." "FLUENCY" = 10%Q
  /\ _extract_score "CLARITY: 0.1" "CLARITY"
     = (3602879701896397 # 36028797018963968)%Q.
Proof.
  split; [| split].
  - apply (_extract_score_reads_number "CLARITY" "Clarity" "  " "8" "5"
             " out of 10"); try reflexivity. discriminate.
  - apply (_extract_score_reads_number "FLUENCY" "fluency" " " "12" "" ".");
      try reflexivity. discriminate.
  - apply (_extract_score_reads_number "CLARITY" "CLARITY" " " "0" "1" "");
      try reflexivity. discriminate.
Defined.

Lemma elapsed_duration_ends_session_witness :
  exists st' session',
    get_manager_response_endpoint Sample.answering None 10 300000000 30
      (mkGetManagerResponseRequest "s1" "Sorry, I was away.") Sample.fresh
    = (st', Ok (mkGetManagerResponseResponse "Noted. What is next?" true))
    /\ od_get (sessions st') "s1" = Some session'
    /\ Session.is_active session' = false.
Proof.
  destruct (od_get (sessions Sample.fresh) "s1") as [session |] eqn:Hs;
    [| vm_compute in Hs; discriminate Hs].
  apply (elapsed_duration_ends_session Sample.answering None 10 300000000 30
           (mkGetManagerResponseRequest "s1" "Sorry, I was away.")
           Sample.fresh session 300 " Noted. What is next? ").
  - exact Hs.
  - vm_compute in Hs. injection Hs as <-. reflexivity.
  - reflexivity.
  - vm_compute in Hs. injection Hs as <-. vm_compute. discriminate.
  - intros messages. reflexivity.
Defined.

End MoreSamples.

(** ** Reading an analysis in the requested format *)

Section FormattedAnswer.
Import PyStr FeedbackAnalyzer.

Lemma search_cons_skip {A : Type} (match_at : string -> option A)
    (c : ascii) (text : string) :
  match_at (String c text) = None ->
  search match_at (String c text) = search match_at text.
Proof. intros H. simpl. now rewrite H. Qed.

Lemma search_app_skip {A : Type} (match_at : string -> option A)
    (p : ascii -> bool) (before after : string) :
  (forall c text, p c = true -> match_at (String c text) = None) ->
  all_chars p before = true ->
  search match_at (before +++ after) = search match_at after.
Proof.
  intros Hp. induction before as [| c before IH]; intros Hall; [reflexivity |].
  simpl in Hall. apply andb_true_iff in Hall. destruct Hall as [Hc Hall].
  change (String c before +++ after) with (String c (before +++ after)).
  rewrite search_cons_skip by now apply Hp. now apply IH.
Qed.

Lemma digit_lower (c : ascii) : is_digit c = true -> lower_char c = c.
Proof.
  destruct c as [b0 b1 b2 b3 b4 b5 b6 b7].
  destruct b0, b1, b2, b3, b4, b5, b6, b7; vm_compute; congruence.
Qed.

(** A label that starts with a letter does not match at a digit. *)
Lemma match_label_digit (a : ascii) (label : string) (c : ascii) (text : string) :
  is_digit (lower_char a) = false ->
  is_digit c = true ->
  match_label (String a label) (String c text) = None.
Proof.
  intros Ha Hc. simpl. rewrite (digit_lower c Hc).
  destruct (Ascii.eqb (lower_char a) c) eqn:E; [| reflexivity].
  apply Ascii.eqb_eq in E. congruence.
Qed.

(** The score pattern at a label followed by a run of digits that ends
    the line. *)
Lemma match_score_at_line (category digits rest : string) :
  digits <> EmptyString ->
  all_chars is_digit digits = true ->
  match_score_at category
    (category +++ ":" +++ " " +++ digits +++ String (ascii_of_nat 10) rest)
  = Some (float_of_decimal digits EmptyString).
Proof.
  intros Hne Hd. rewrite match_score_at_eq.
  rewrite <- (append_assoc category ":").
  rewrite match_label_complete by reflexivity.
  rewrite (lstrip_spaces " ") by reflexivity.
  destruct digits as [| d ds]; [congruence |].
  assert (Hs : is_space d = false).
  { apply is_digit_not_space. simpl in Hd. apply andb_true_iff in Hd. tauto. }
  assert (Hl : lstrip (String d ds +++ String (ascii_of_nat 10) rest)
               = String d ds +++ String (ascii_of_nat 10) rest)
    by (simpl; now rewrite Hs).
  rewrite Hl, span_digits_app by (assumption || reflexivity).
  reflexivity.
Qed.

Lemma up_to_blank_line_whole (s : string) :
  contains (nl +++ nl) s = false -> up_to_blank_line s = s.
Proof.
  induction s as [| c s IH]; [reflexivity |].
  change (contains (nl +++ nl) (String c s))
    with (String.prefix (nl +++ nl) (String c s) || contains (nl +++ nl) s).
  intros H. apply orb_false_iff in H. destruct H as [Hp Hc].
  change (up_to_blank_line (String c s))
    with (if String.prefix (nl +++ nl) (String c s)
          then EmptyString else String c (up_to_blank_line s)).
  rewrite Hp, IH by assumption. reflexivity.
Qed.

(** The tip pattern at its label followed by a one-paragraph tip. *)
Lemma match_improvement_at_line (tip : string) :
  head_is (fun c => negb (is_space c)) tip = true ->
  contains (nl +++ nl) tip = false ->
  match_improvement_at ("ONE_IMPROVEMENT: " +++ tip) = Some tip.
Proof.
  intros Hhead Hblank. destruct tip as [| c tail]; [discriminate |].
  simpl in Hhead. apply negb_true_iff in Hhead.
  change (contains (nl +++ nl) (String c tail))
    with (String.prefix (nl +++ nl) (String c tail) || contains (nl +++ nl) tail)
    in Hblank.
  apply orb_false_iff in Hblank. destruct Hblank as [_ Hblank].
  unfold match_improvement_at.
  change (match_label "ONE_IMPROVEMENT:" ("ONE_IMPROVEMENT: " +++ String c tail))
    with (Some (String " " (String c tail))).
  cbv iota beta.
  change (lstrip (String " " (String c tail)))
    with (if is_space c then lstrip tail else String c tail).
  rewrite Hhead, up_to_blank_line_whole by assumption. reflexivity.
Qed.

Ltac skip_to_label Hc Hf Hp :=
  unfold formatted_answer, nl; cbn [String.append];
  repeat first
    [ rewrite search_cons_skip by reflexivity
    | rewrite (search_app_skip _ is_digit) by
        (first [ exact Hc | exact Hf | exact Hp
               | intros; try unfold match_score_at;
                 try unfold match_improvement_at;
                 cbn [String.append]; now rewrite match_label_digit ]) ].

(** An analysis in the requested format is read back field by field:
    each score is the value of its digits, cut down to 10 when larger,
    and the tip is the text after its label. *)
Lemma formatted_answer_fields (clarity fluency professional tip : string) :
  clarity <> EmptyString -> all_chars is_digit clarity = true ->
  fluency <> EmptyString -> all_chars is_digit fluency = true ->
  professional <> EmptyString -> all_chars is_digit professional = true ->
  head_is (fun c => negb (is_space c)) tip = true ->
  contains (nl +++ nl) tip = false ->
  let text := formatted_answer clarity fluency professional tip in
  _extract_score text "CLARITY"
  = clamp_score (float_of_decimal clarity EmptyString)
  /\ _extract_score text "FLUENCY"
     = clamp_score (float_of_decimal fluency EmptyString)
  /\ _extract_score text "PROFESSIONAL"
     = clamp_score (float_of_decimal professional EmptyString)
  /\ _extract_improvement text = strip tip.
Proof.
  intros Hcn Hc Hfn Hf Hpn Hp Hhead Hblank text. subst text.
  unfold _extract_score, _extract_improvement.
  split; [| split; [| split]].
  - skip_to_label Hc Hf Hp.
    rewrite (search_head _ _ (float_of_decimal clarity EmptyString));
      [reflexivity |].
    exact (match_score_at_line "CLARITY" clarity _ Hcn Hc).
  - skip_to_label Hc Hf Hp.
    rewrite (search_head _ _ (float_of_decimal fluency EmptyString));
      [reflexivity |].
    exact (match_score_at_line "FLUENCY" fluency _ Hfn Hf).
  - skip_to_label Hc Hf Hp.
    rewrite (search_head _ _ (float_of_decimal professional EmptyString));
      [reflexivity |].
    exact (match_score_at_line "PROFESSIONAL" professional _ Hpn Hp).
  - skip_to_label Hc Hf Hp.
    rewrite (search_head _ _ tip); [reflexivity |].
    exact (match_improvement_at_line tip Hhead Hblank).
Qed.

(** X22.  When the scorer answers in the format the prompt asks for, with
    whole-number scores and a one-paragraph tip, the feedback for a
    session with at least one user turn carries exactly those scores (cut
    down to 10 when larger), that tip (stripped), and the answer itself as
    the detailed analysis. *)
Theorem analyze_conversation_reads_formatted_answer (scorer : Scorer)
    (session : Session.t) (answer clarity fluency professional tip : string) :
  user_messages session <> [] ->
  (forall messages, scorer messages = Ok (Some answer)) ->
  strip answer = formatted_answer clarity fluency professional tip ->
  clarity <> EmptyString -> all_chars is_digit clarity = true ->
  fluency <> EmptyString -> all_chars is_digit fluency = true ->
  professional <> EmptyString -> all_chars is_digit professional = true ->
  head_is (fun c => negb (is_space c)) tip = true ->
  contains (nl +++ nl) tip = false ->
  analyze_conversation scorer session
  = Feedback.mk
      (clamp_score (float_of_decimal clarity EmptyString))
      (clamp_score (float_of_decimal fluency EmptyString))
      (clamp_score (float_of_decimal professional EmptyString))
      (strip tip)
      (Some (formatted_answer clarity fluency professional tip)).
Proof.
  intros Huser Hscorer Hanswer Hcn Hc Hfn Hf Hpn Hp Hhead Hblank.
  destruct (formatted_answer_fields clarity fluency professional tip
              Hcn Hc Hfn Hf Hpn Hp Hhead Hblank) as (H1 & H2 & H3 & H4).
  unfold analyze_conversation, analyze_conversation_body.
  destruct (user_messages session) as [| m ms]; [congruence |].
  rewrite Hscorer. simpl bind. cbv iota beta.
  rewrite Hanswer, H1, H2, H3, H4. reflexivity.
Qed.

End FormattedAnswer.

(** ** The length of an answered conversation *)

Section SixTurns.
Import PyStr ConversationEngine Main.




Lemma analyze_conversation_reads_formatted_answer_witness :
  FeedbackAnalyzer.analyze_conversation Sample.scoring Sample.deadline_session
  = Feedback.mk 8%Q 10%Q 7%Q "Give dates when you report a delay."
      (Some (formatted_answer "8" "12" "7"
               "Give dates when you report a delay.")).
Proof.
  apply (analyze_conversation_reads_formatted_answer Sample.scoring
           Sample.deadline_session Sample.scored_answer "8" "12" "7"
           "Give dates when you report a delay.");
    try reflexivity; discriminate.
Defined.

End SixTurns.
